(** * Azure ML tutorial notebooks: scoring adapter, training CLI and
      workspace glue

    The development embeds the locally executed code of the notebooks:
    - [score.py] ([init]/[run]) and the MLflow [ModelWrapper]
      ([load_context]/[predict]);
    - the [argparse] command line of the generated [main.py] and the
      command line of the job that launches it;
    - the notebook cells that talk to the workspace ([compute.get] with
      its fallback, the choice of the latest model version, the blue
      deployment);
    - the two request payloads sent to the endpoints.

    Library calls (numpy, pandas, json, argparse) are modelled by their
    documented behaviour on the values that reach them.  Remote calls are
    operations of an effect monad that records every call and asks a
    client for the outcome. *)

From stdpp Require Import gmap strings.
From Stdlib Require Import ZArith QArith Lia Bool List Ascii String.
From Stdlib Require Import DecimalString DecimalPos DecimalZ DecimalFacts.
Import ListNotations.

Local Open Scope list_scope.
Local Open Scope string_scope.
Set Warnings "-register-all".

(** ** Python exceptions and results *)

Module Py.

(** An exception carries the names of its class and of every superclass
    (its method resolution order) and a message, so that
    [except C] is the test [isinstance e C]. *)
Record exn : Type := mk_exn { exn_mro : list string; exn_msg : string }.

Definition isinstance (e : exn) (cls : string) : bool :=
  existsb (String.eqb cls) (exn_mro e).

Definition Exception_mro : list string := ["Exception"; "BaseException"].

Definition ValueError (msg : string) : exn :=
  mk_exn ("ValueError" :: Exception_mro) msg.
Definition AttributeError (msg : string) : exn :=
  mk_exn ("AttributeError" :: Exception_mro) msg.
Definition KeyError (msg : string) : exn :=
  mk_exn ("KeyError" :: "LookupError" :: Exception_mro) msg.
Definition RuntimeError (msg : string) : exn :=
  mk_exn ("RuntimeError" :: Exception_mro) msg.
Definition NotImplementedError (msg : string) : exn :=
  mk_exn ("NotImplementedError" :: "RuntimeError" :: Exception_mro) msg.
Definition KeyboardInterrupt : exn :=
  mk_exn ["KeyboardInterrupt"; "BaseException"] "".
Definition SystemExit (code : string) : exn :=
  mk_exn ["SystemExit"; "BaseException"] code.

(** [str(E)] of an exception built from one message. *)
Definition str_exn (e : exn) : string := exn_msg e.

Inductive result (A : Type) : Type :=
| Ok (a : A)
| Raise (e : exn).
Arguments Ok {A} a.
Arguments Raise {A} e.

Definition bind {A B : Type} (r : result A) (k : A -> result B) : result B :=
  match r with
  | Ok a => k a
  | Raise e => Raise e
  end.

Section Traverse.

Context {A B : Type}.
Variable f : A -> option B.

(** Every element converted, or nothing. *)
Fixpoint traverse (l : list A) : option (list B) :=
  match l with
  | [] => Some []
  | a :: l' =>
      match f a, traverse l' with
      | Some b, Some bs => Some (b :: bs)
      | _, _ => None
      end
  end.

End Traverse.

End Py.

Import Py.

Declare Scope py_scope.
Delimit Scope py_scope with py.
Notation "'let*' x := r 'in' k" := (Py.bind r (fun x => k))
  (at level 10, x name, r at level 100, k at level 200) : py_scope.

(** ** numpy: two-dimensional arrays of finite floats

    A finite binary64 value is modelled by the rational number it
    denotes; [argmax] and [max] only compare values.  An array of shape
    [(N, K)] is its [K] and its [N] rows. *)

Module Numpy.

Record ndarray : Type := mk_ndarray { ncols : nat; rows : list (list Q) }.

Definition nrows (m : ndarray) : nat := List.length (rows m).

Definition well_shaped (m : ndarray) : Prop :=
  Forall (fun r => List.length r = ncols m) (rows m).

(** The scan of numpy's [argmax] for doubles: the running maximum [mp]
    found at index [best] is replaced when the next value is not [<= mp],
    so the first occurrence of the maximum wins. *)
Fixpoint argmax_from (mp : Q) (best i : nat) (l : list Q) : nat :=
  match l with
  | [] => best
  | x :: l' =>
      if Qle_bool x mp then argmax_from mp best (S i) l'
      else argmax_from x i (S i) l'
  end.

Definition argmax_row (r : list Q) : option nat :=
  match r with
  | [] => None
  | x :: l => Some (argmax_from x 0 1 l)
  end.

(** The reduction [np.maximum.reduce]: the accumulator is kept when it is
    [>=] the next value. *)
Fixpoint max_from (mp : Q) (l : list Q) : Q :=
  match l with
  | [] => mp
  | x :: l' => if Qle_bool x mp then max_from mp l' else max_from x l'
  end.

Definition max_row (r : list Q) : option Q :=
  match r with
  | [] => None
  | x :: l => Some (max_from x l)
  end.

(** [m.argmax(axis=1)]: reducing an axis of length zero raises
    [ValueError], also when there is no row. *)
Definition argmax_axis1 (m : ndarray) : result (list nat) :=
  if Nat.eqb (ncols m) 0
  then Raise (ValueError "attempt to get argmax of an empty sequence")
  else match traverse argmax_row (rows m) with
       | Some l => Ok l
       | None => Raise (ValueError "attempt to get argmax of an empty sequence")
       end.

(** [m.max(axis=1)]. *)
Definition max_axis1 (m : ndarray) : result (list Q) :=
  if Nat.eqb (ncols m) 0
  then Raise (ValueError "zero-size array to reduction operation maximum which has no identity")
  else match traverse max_row (rows m) with
       | Some l => Ok l
       | None => Raise (ValueError "zero-size array to reduction operation maximum which has no identity")
       end.

End Numpy.

(** ** json: documents, [json.dumps] and a reader of JSON text *)

Module Json.

(** A parsed document.  A number keeps its lexeme, it is converted by
    [int] or [float] afterwards, as [json.loads] does. *)
Inductive json : Type :=
| JNull
| JBool (b : bool)
| JNum (lexeme : string)
| JStr (s : string)
| JArr (l : list json)
| JObj (members : list (string * json)).

(** The Python values handed to [json.dumps]. *)
Inductive pyobj : Type :=
| PyNone
| PyBool (b : bool)
| PyInt (z : Z)
| PyFloat (q : Q)
| PyStr (s : string)
| PyList (l : list pyobj)
| PyDict (d : list (string * pyobj)).

Definition int_repr (z : Z) : string := NilZero.string_of_int (Z.to_int z).

(** [int] on a lexeme of the grammar of numbers without fraction and
    exponent: an optional minus sign and digits. *)
Definition int_of_lexeme (s : string) : option Z :=
  option_map Z.of_int (NilZero.int_of_string s).

Definition chr (n : nat) : ascii := ascii_of_nat n.

(** The double quote. *)
Definition dquote : ascii := chr 34.

(** Escapes written by [json.dumps] for the characters that need one;
    the other control characters and non-ASCII text, written as
    [\uXXXX], do not occur in the documents of the notebooks and are
    left as they are. *)
Definition escape_char (c : ascii) : string :=
  if Ascii.eqb c dquote then String "\" (String dquote "")
  else if Ascii.eqb c "\" then "\\"
  else if Ascii.eqb c (chr 10) then "\n"
  else if Ascii.eqb c (chr 13) then "\r"
  else if Ascii.eqb c (chr 9) then "\t"
  else if Ascii.eqb c (chr 8) then "\b"
  else if Ascii.eqb c (chr 12) then "\f"
  else String c "".

Fixpoint escape (s : string) : string :=
  match s with
  | EmptyString => ""
  | String c s' => escape_char c ++ escape s'
  end.

Definition quote (s : string) : string :=
  String dquote (escape s ++ String dquote "").

Fixpoint join (sep : string) (l : list string) : string :=
  match l with
  | [] => ""
  | [x] => x
  | x :: l' => x ++ sep ++ join sep l'
  end.

Section Dumps.

(** [float.__repr__], the shortest decimal text that reads back as the
    same float. *)
Variable float_repr : Q -> string.

(** [json.dumps(o)] with the default separators [", "] and [": "]. *)
Fixpoint dumps (o : pyobj) : string :=
  match o with
  | PyNone => "null"
  | PyBool true => "true"
  | PyBool false => "false"
  | PyInt z => int_repr z
  | PyFloat q => float_repr q
  | PyStr s => quote s
  | PyList l => "[" ++ join ", " (List.map dumps l) ++ "]"
  | PyDict d =>
      "{" ++ join ", " (List.map (fun kv => quote (fst kv) ++ ": " ++ dumps (snd kv)) d) ++ "}"
  end.

End Dumps.

(** *** Reading JSON text

    The reader is a pushdown automaton that consumes one character at a
    time.  The stack holds the arrays and objects that are still open. *)

Inductive frame : Type :=
| FArr (acc : list json)
| FObjK (acc : list (string * json))
| FObjV (acc : list (string * json)) (key : string).

Inductive mode : Type :=
| Value
| ArrFirst
| ObjFirst
| Key
| Colon
| InStr (s : string)
| InEsc (s : string)
| Atom (lex : string)
| After
| Done (v : json).

Record state : Type := mk_state { st_mode : mode; st_stack : list frame }.

Definition is_ws (c : ascii) : bool :=
  Ascii.eqb c " " || Ascii.eqb c (chr 10) || Ascii.eqb c (chr 13) || Ascii.eqb c (chr 9).

Definition is_delim (c : ascii) : bool :=
  is_ws c || Ascii.eqb c "," || Ascii.eqb c "]" || Ascii.eqb c "}".

Definition is_digit (c : ascii) : bool :=
  (48 <=? nat_of_ascii c)%nat && (nat_of_ascii c <=? 57)%nat.

Fixpoint skip_digits (s : string) : string :=
  match s with
  | String c s' => if is_digit c then skip_digits s' else s
  | EmptyString => s
  end.

(** One digit at least, then the rest. *)
Definition digits1 (s : string) : option string :=
  match s with
  | String c s' => if is_digit c then Some (skip_digits s') else None
  | EmptyString => None
  end.

Definition number_exp (s : string) : bool :=
  match s with
  | EmptyString => true
  | String c s' =>
      if Ascii.eqb c "e" || Ascii.eqb c "E" then
        let s'' := match s' with
                   | String d r => if Ascii.eqb d "+" || Ascii.eqb d "-" then r else s'
                   | EmptyString => s'
                   end in
        match digits1 s'' with
        | Some EmptyString => true
        | _ => false
        end
      else false
  end.

Definition number_frac (s : string) : bool :=
  match s with
  | String c s' =>
      if Ascii.eqb c "." then
        match digits1 s' with
        | Some r => number_exp r
        | None => false
        end
      else number_exp s
  | EmptyString => true
  end.

Definition number_int (s : string) : bool :=
  match s with
  | String c s' =>
      if Ascii.eqb c "0" then number_frac s'
      else if is_digit c then number_frac (skip_digits s')
      else false
  | EmptyString => false
  end.

(** The JSON grammar of numbers: an optional minus sign; then a zero or
    a non-zero digit followed by digits; then optionally a dot and one
    digit or more; then optionally [e] or [E], an optional sign and one
    digit or more. *)
Definition is_json_number (s : string) : bool :=
  match s with
  | String c s' => if Ascii.eqb c "-" then number_int s' else number_int s
  | EmptyString => false
  end.

Definition classify (lex : string) : option json :=
  if String.eqb lex "true" then Some (JBool true)
  else if String.eqb lex "false" then Some (JBool false)
  else if String.eqb lex "null" then Some JNull
  else if is_json_number lex then Some (JNum lex)
  else None.

(** A finished value goes to the container on top of the stack, or is
    the document when nothing is open. *)
Definition push_value (v : json) (stk : list frame) : option state :=
  match stk with
  | [] => Some (mk_state (Done v) [])
  | FArr acc :: stk' => Some (mk_state After (FArr (acc ++ [v])%list :: stk'))
  | FObjV acc k :: stk' => Some (mk_state After (FObjK (acc ++ [(k, v)])%list :: stk'))
  | FObjK _ :: _ => None
  end.

Definition unescape (c : ascii) : option ascii :=
  if Ascii.eqb c dquote then Some dquote
  else if Ascii.eqb c "\" then Some "\"%char
  else if Ascii.eqb c "/" then Some "/"%char
  else if Ascii.eqb c "n" then Some (chr 10)
  else if Ascii.eqb c "r" then Some (chr 13)
  else if Ascii.eqb c "t" then Some (chr 9)
  else if Ascii.eqb c "b" then Some (chr 8)
  else if Ascii.eqb c "f" then Some (chr 12)
  else None.

Definition step_value (c : ascii) (stk : list frame) : option state :=
  if is_ws c then Some (mk_state Value stk)
  else if Ascii.eqb c "[" then Some (mk_state ArrFirst (FArr [] :: stk))
  else if Ascii.eqb c "{" then Some (mk_state ObjFirst (FObjK [] :: stk))
  else if Ascii.eqb c dquote then Some (mk_state (InStr "") stk)
  else if is_delim c || Ascii.eqb c ":" then None
  else Some (mk_state (Atom (String c "")) stk).

Definition step_key (c : ascii) (stk : list frame) : option state :=
  if is_ws c then Some (mk_state Key stk)
  else if Ascii.eqb c dquote then Some (mk_state (InStr "") stk)
  else None.

Definition close_top (c : ascii) (stk : list frame) : option state :=
  match stk with
  | FArr acc :: stk' => if Ascii.eqb c "]" then push_value (JArr acc) stk' else None
  | FObjK acc :: stk' => if Ascii.eqb c "}" then push_value (JObj acc) stk' else None
  | _ => None
  end.

Definition step_after (c : ascii) (stk : list frame) : option state :=
  if is_ws c then Some (mk_state After stk)
  else if Ascii.eqb c "," then
    match stk with
    | FArr _ :: _ => Some (mk_state Value stk)
    | FObjK _ :: _ => Some (mk_state Key stk)
    | _ => None
    end
  else close_top c stk.

Definition end_string (s : string) (stk : list frame) : option state :=
  match stk with
  | FObjK acc :: stk' => Some (mk_state Colon (FObjV acc s :: stk'))
  | _ => push_value (JStr s) stk
  end.

Definition step (st : state) (c : ascii) : option state :=
  let stk := st_stack st in
  match st_mode st with
  | Value => step_value c stk
  | ArrFirst => if Ascii.eqb c "]" then close_top c stk else
                if is_ws c then Some (mk_state ArrFirst stk) else step_value c stk
  | ObjFirst => if Ascii.eqb c "}" then close_top c stk else
                if is_ws c then Some (mk_state ObjFirst stk) else step_key c stk
  | Key => step_key c stk
  | Colon => if is_ws c then Some st
             else if Ascii.eqb c ":" then Some (mk_state Value stk) else None
  | InStr s =>
      if Ascii.eqb c dquote then end_string s stk
      else if Ascii.eqb c "\" then Some (mk_state (InEsc s) stk)
      else if (nat_of_ascii c <? 32)%nat then None
      else Some (mk_state (InStr (s ++ String c "")) stk)
  | InEsc s =>
      match unescape c with
      | Some c' => Some (mk_state (InStr (s ++ String c' "")) stk)
      | None => None
      end
  | Atom lex =>
      if is_delim c then
        match classify lex with
        | Some v =>
            match push_value v stk with
            | Some (mk_state After stk') => step_after c stk'
            | Some (mk_state (Done _) _) => if is_ws c then push_value v stk else None
            | _ => None
            end
        | None => None
        end
      else Some (mk_state (Atom (lex ++ String c "")) stk)
  | After => step_after c stk
  | Done v => if is_ws c then Some st else None
  end.

Fixpoint run (st : state) (s : string) : option state :=
  match s with
  | EmptyString => Some st
  | String c s' =>
      match step st c with
      | Some st' => run st' s'
      | None => None
      end
  end.

Definition finish (st : state) : option json :=
  match st_mode st, st_stack st with
  | Done v, [] => Some v
  | Atom lex, [] => classify lex
  | _, _ => None
  end.

Definition initial : state := mk_state Value [].

(** [json.loads] up to the conversion of the numbers. *)
Definition loads (s : string) : option json :=
  match run initial s with
  | Some st => finish st
  | None => None
  end.

Section Decode.

(** [float(s)]. *)
Variable float_of_string : string -> option Q.

(** A lexeme with a fraction or an exponent is read by [float], the
    others by [int]. *)
Fixpoint is_float_lexeme (s : string) : bool :=
  match s with
  | EmptyString => false
  | String c s' =>
      Ascii.eqb c "." || Ascii.eqb c "e" || Ascii.eqb c "E" || is_float_lexeme s'
  end.

Fixpoint decode (j : json) : option pyobj :=
  match j with
  | JNull => Some PyNone
  | JBool b => Some (PyBool b)
  | JNum lex =>
      if is_float_lexeme lex
      then option_map PyFloat (float_of_string lex)
      else option_map PyInt (int_of_lexeme lex)
  | JStr s => Some (PyStr s)
  | JArr l => option_map PyList (traverse decode l)
  | JObj ms =>
      option_map PyDict
        (traverse (fun kv => option_map (pair (fst kv)) (decode (snd kv))) ms)
  end.

(** [json.loads(s)]; the members of an object are kept in the order of
    the text. *)
Definition loads_py (s : string) : option pyobj :=
  match loads s with
  | Some j => decode j
  | None => None
  end.

End Decode.

End Json.

(** ** The built-in conversions [int] and [float] *)

Module Builtins.

Import Json.

(** ASCII white space, as [str.strip] and [int] see it. *)
Definition is_space (c : ascii) : bool :=
  let n := nat_of_ascii c in
  ((9 <=? n)%nat && (n <=? 13)%nat) || ((28 <=? n)%nat && (n <=? 32)%nat).

Fixpoint lstrip (s : string) : string :=
  match s with
  | String c s' => if is_space c then lstrip s' else s
  | EmptyString => s
  end.

Fixpoint rstrip (s : string) : string :=
  match s with
  | EmptyString => ""
  | String c s' =>
      match rstrip s' with
      | EmptyString => if is_space c then "" else String c ""
      | r => String c r
      end
  end.

(** Digits in groups separated by single underscores; the underscores
    are dropped.  [after_digit] tells whether the previous character was
    a digit. *)
Fixpoint digit_groups (after_digit : bool) (s : string) : option string :=
  match s with
  | EmptyString => if after_digit then Some "" else None
  | String c s' =>
      if is_digit c then option_map (String c) (digit_groups true s')
      else if Ascii.eqb c "_" && after_digit then digit_groups false s'
      else None
  end.

Fixpoint all_digits (s : string) : bool :=
  match s with
  | EmptyString => true
  | String c s' => is_digit c && all_digits s'
  end.

Fixpoint split_at (sep : ascii) (s : string) : option (string * string) :=
  match s with
  | EmptyString => None
  | String c s' =>
      if Ascii.eqb c sep then Some ("", s')
      else match split_at sep s' with
           | Some (a, b) => Some (String c a, b)
           | None => None
           end
  end.

Definition digits_value (s : string) : Z :=
  match NilEmpty.uint_of_string s with
  | Some u => Z.of_uint u
  | None => 0
  end.

(** [int(s)] in base ten on ASCII text: blanks around are dropped, then
    an optional sign and groups of digits. *)
Definition py_int (s : string) : option Z :=
  let body := rstrip (lstrip s) in
  let (neg, ds) :=
    match body with
    | String "-" r => (true, r)
    | String "+" r => (false, r)
    | _ => (false, body)
    end in
  match digit_groups false ds with
  | Some d => Some (if neg then - digits_value d else digits_value d)%Z
  | None => None
  end.

(** [float(s)] on plain decimal literals: an optional sign, digits and
    an optional fractional part, with a digit on one side of the dot at
    least.  The literal denotes the float nearest to it; exponents,
    [inf], [nan], underscores and surrounding blanks are not covered. *)
Definition py_float (s : string) : option Q :=
  let (neg, body) :=
    match s with
    | String "-" r => (true, r)
    | String "+" r => (false, r)
    | _ => (false, s)
    end in
  let (ip, fp) :=
    match split_at "." body with
    | Some (a, b) => (a, b)
    | None => (body, "")
    end in
  if all_digits ip && all_digits fp && negb (String.eqb (ip ++ fp) "") then
    let n := digits_value (ip ++ fp) in
    let d := Z.to_pos (10 ^ Z.of_nat (String.length fp)) in
    Some (Qmake (if neg then - n else n) d)
  else None.

End Builtins.

(** ** pandas: the tabular values that enter and leave the scoring code *)

Module Pandas.

Inductive cell : Type :=
| CInt (z : Z)
| CFloat (q : Q)
| CStr (s : string).

(** A frame is its columns, in order, and the length of its index. *)
Record DataFrame : Type :=
  mk_DataFrame { df_columns : list (string * list cell); df_rows : nat }.

Definition column_names (df : DataFrame) : list string :=
  List.map fst (df_columns df).

(** [pd.DataFrame(data={name: list, ...})]: the lists become the
    columns, in the order of the dictionary, over a fresh range index;
    lists of different lengths are refused. *)
Definition DataFrame_of_dict (data : list (string * list cell)) : result DataFrame :=
  match data with
  | [] => Ok (mk_DataFrame [] 0)
  | (_, c) :: rest =>
      if forallb (fun kv => Nat.eqb (List.length (snd kv)) (List.length c)) rest
      then Ok (mk_DataFrame data (List.length c))
      else Raise (ValueError "All arrays must be of the same length")
  end.

End Pandas.

(** ** The scoring script and the MLflow wrapper *)

Module Scoring.

Import Numpy Pandas Json.

(** [ndarray.tolist()] of the two reductions. *)
Definition tolist_int (l : list nat) : list Z := List.map Z.of_nat l.

Section Scoring.

(** The classifier is XGBoost's: its type, a fresh instance, loading a
    saved model into it and its [predict_proba] are taken as given. *)
Variable XGBClassifier : Type.
Variable new_classifier : XGBClassifier.
Variable load_model : XGBClassifier -> string -> result XGBClassifier.
Variable predict_proba : XGBClassifier -> DataFrame -> result ndarray.

(** [float.__repr__] and [str(data)] of a frame. *)
Variable float_repr : Q -> string.
Variable DataFrame_str : DataFrame -> string.

(** *** score.py *)

(** [init()]: score.py does not import [XGBClassifier], so the
    constructor call raises [NameError] and the global [MODEL] keeps
    its value. *)
Definition init (getenv : string -> option string) (MODEL : option XGBClassifier)
  : result unit * option XGBClassifier :=
  let model_path := getenv "AZUREML_MODEL_DIR" in
  (Raise (mk_exn ("NameError" :: Exception_mro) "name 'XGBClassifier' is not defined"),
   MODEL).

(** The [try] block of [run]. *)
Definition run_body (MODEL : option XGBClassifier) (data : DataFrame) : result string :=
  (let* predictions :=
     match MODEL with
     | Some m => predict_proba m data
     | None => Raise (AttributeError "'NoneType' object has no attribute 'predict_proba'")
     end in
   let* classes := argmax_axis1 predictions in
   let* confidence := max_axis1 predictions in
   Ok (dumps float_repr
         (PyDict [("class", PyList (List.map PyInt (tolist_int classes)));
                  ("confidence", PyList (List.map PyFloat confidence))])))%py.

(** [run(data)]: the value returned or the exception raised, and the
    records sent to [logging.error]. *)
Definition run (MODEL : option XGBClassifier) (data : DataFrame)
  : result string * list string :=
  match run_body MODEL data with
  | Ok s => (Ok s, [])
  | Raise E =>
      if isinstance E "RuntimeError"
      then (Ok ("Input " ++ DataFrame_str data ++ ". Exception was: " ++ str_exn E),
            ["[ERR] Exception happened: " ++ str_exn E])
      else (Raise E, [])
  end.

(** *** ModelWrapper *)

(** The instance: its attribute [model], absent until [load_context]
    has run. *)
Record ModelWrapper : Type := mk_ModelWrapper { model : option XGBClassifier }.

Record PythonModelContext : Type :=
  mk_PythonModelContext { artifacts : gmap string string }.

(** [load_context(self, context)]: [self.model] is assigned before the
    saved model is loaded into it. *)
Definition load_context (self : ModelWrapper) (context : PythonModelContext)
  : result unit * ModelWrapper :=
  match artifacts context !! "model" with
  | None => (Raise (KeyError "'model'"), self)
  | Some model_path =>
      match load_model new_classifier model_path with
      | Ok m => (Ok tt, mk_ModelWrapper (Some m))
      | Raise e => (Raise e, mk_ModelWrapper (Some new_classifier))
      end
  end.

(** [predict(self, context, data)]: the result and the instance after
    the call. *)
Definition predict (self : ModelWrapper) (context : PythonModelContext) (data : DataFrame)
  : result DataFrame * ModelWrapper :=
  ((let* predictions :=
      match model self with
      | Some m => predict_proba m data
      | None => Raise (AttributeError "'ModelWrapper' object has no attribute 'model'")
      end in
    let* classes := argmax_axis1 predictions in
    let* confidence := max_axis1 predictions in
    DataFrame_of_dict
      [("class", List.map CInt (tolist_int classes));
       ("confidence", List.map CFloat confidence)])%py,
   self).

End Scoring.

End Scoring.

(** ** argparse *)

Module Argparse.

Import Builtins.

Inductive value : Type :=
| VNone
| VStr (s : string)
| VInt (z : Z)
| VFloat (q : Q).

Inductive arg_type : Type := TStr | TInt | TFloat.

Inductive action_kind : Type := Store | Help.

Record Action : Type := mk_Action {
  option_strings : list string;
  dest : string;
  kind : action_kind;
  type_ : arg_type;
  required : bool;
  default : value
}.

(** A parser is the list of its actions, in the order they were added;
    only optional arguments are modelled, the script declares no
    positional one. *)
Definition ArgumentParser : Type := list Action.

(** [argparse.ArgumentParser()]: [add_help] is on by default. *)
Definition new_parser : ArgumentParser :=
  [mk_Action ["-h"; "--help"] "help" Help TStr false VNone].

Fixpoint lstrip_dashes (s : string) : string :=
  match s with
  | String "-" s' => lstrip_dashes s'
  | _ => s
  end.

Fixpoint dashes_to_underscores (s : string) : string :=
  match s with
  | EmptyString => ""
  | String c s' => String (if Ascii.eqb c "-" then "_"%char else c) (dashes_to_underscores s')
  end.

(** [parser.add_argument(flag, type=..., required=..., default=...)]:
    the destination is the flag without its leading dashes. *)
Definition add_argument (p : ArgumentParser) (flag : string) (t : arg_type)
    (req : bool) (dflt : value) : ArgumentParser :=
  (p ++ [mk_Action [flag] (dashes_to_underscores (lstrip_dashes flag)) Store t req dflt])%list.

Definition convert (t : arg_type) (s : string) : option value :=
  match t with
  | TStr => Some (VStr s)
  | TInt => option_map VInt (py_int s)
  | TFloat => option_map VFloat (py_float s)
  end.

(** What a word of the command line is taken for. *)
Inductive token_class : Type :=
| Positional
| Optional (a : Action) (explicit : option string)
| UnknownOptional
| Ambiguous.

Definition find_exact (p : ArgumentParser) (s : string) : option Action :=
  List.find (fun a => existsb (String.eqb s) (option_strings a)) p.

Definition is_long (s : string) : bool := String.prefix "--" s.

(** The abbreviations of [allow_abbrev]: every declared option string
    that the word, up to its [=], is a prefix of; for a word with one
    dash the two first characters may also be a short option followed by
    its argument. *)
Definition option_tuples (p : ArgumentParser) (s : string)
  : list (Action * option string) :=
  if is_long s then
    let (pre, explicit) :=
      match split_at "=" s with
      | Some (a, b) => (a, Some b)
      | None => (s, None)
      end in
    List.flat_map
      (fun a => List.map (fun _ => (a, explicit))
                  (List.filter (String.prefix pre) (option_strings a))) p
  else
    let short := String.substring 0 2 s in
    let rest := String.substring 2 (String.length s - 2) s in
    List.flat_map
      (fun a => List.map
                  (fun o => if String.eqb o short then (a, Some rest) else (a, None))
                  (List.filter (fun o => String.eqb o short || String.prefix s o)
                     (option_strings a))) p.

(** A minus sign, then digits, or digits around a dot with one digit
    after it at least. *)
Definition looks_negative_number (s : string) : bool :=
  match s with
  | String "-" r =>
      match split_at "." r with
      | Some (a, b) => all_digits a && all_digits b && negb (String.eqb b "")
      | None => all_digits r && negb (String.eqb r "")
      end
  | _ => false
  end.

Definition contains_space (s : string) : bool :=
  match split_at " " s with Some _ => true | None => false end.

(** argparse's [_parse_optional]. *)
Definition parse_optional (p : ArgumentParser) (s : string) : token_class :=
  match s with
  | EmptyString => Positional
  | String c _ =>
      if negb (Ascii.eqb c "-") then Positional
      else match find_exact p s with
      | Some a => Optional a None
      | None =>
          if Nat.eqb (String.length s) 1 then Positional
          else
            let exact_eq :=
              match split_at "=" s with
              | Some (o, v) =>
                  match find_exact p o with
                  | Some a => Some (a, v)
                  | None => None
                  end
              | None => None
              end in
            match exact_eq with
            | Some (a, v) => Optional a (Some v)
            | None =>
                match option_tuples p s with
                | [(a, e)] => Optional a e
                | _ :: _ :: _ => Ambiguous
                | [] =>
                    if looks_negative_number s then Positional
                    else if contains_space s then Positional
                    else UnknownOptional
                end
            end
      end
  end.

Definition is_argument (p : ArgumentParser) (s : string) : bool :=
  negb (String.eqb s "--") &&
  match parse_optional p s with Positional => true | _ => false end.

Definition usage_error : exn := SystemExit "2".

Record parse_state : Type := mk_parse_state {
  namespace : gmap string value;
  seen : list string;
  extras : list string
}.

(** The words are consumed from left to right.  An option without [=]
    takes the next word when that word is an argument.  Words nothing
    consumes, and everything from the separator [--] on, are kept as
    extras. *)
Fixpoint consume (p : ArgumentParser) (argv : list string) (st : parse_state)
  : result parse_state :=
  match argv with
  | [] => Ok st
  | t :: rest =>
      if String.eqb t "--"
      then Ok (mk_parse_state (namespace st) (seen st) (extras st ++ argv)%list)
      else
        let skip := consume p rest
                      (mk_parse_state (namespace st) (seen st) (extras st ++ [t])%list) in
        let store a v rest' :=
          match convert (type_ a) v with
          | Some x =>
              consume p rest'
                (mk_parse_state (<[dest a := x]> (namespace st)) (dest a :: seen st) (extras st))
          | None => Raise usage_error
          end in
        match parse_optional p t with
        | Positional => skip
        | UnknownOptional => skip
        | Ambiguous => Raise usage_error
        | Optional a explicit =>
            match kind a, explicit with
            | Help, None => Raise (SystemExit "0")
            | Help, Some _ => Raise usage_error
            | Store, Some v => store a v rest
            | Store, None =>
                match rest with
                | v :: rest' =>
                    if is_argument p v then store a v rest' else Raise usage_error
                | [] => Raise usage_error
                end
            end
        end
  end.

Fixpoint before_separator (argv : list string) : list string :=
  match argv with
  | [] => []
  | t :: rest => if String.eqb t "--" then [] else t :: before_separator rest
  end.

(** Defaults that are not strings are stored as they are. *)
Definition defaults (p : ArgumentParser) : gmap string value :=
  List.fold_left
    (fun ns a => match kind a with
                 | Store => <[dest a := default a]> ns
                 | Help => ns
                 end) p ∅.

(** [parser.parse_args(argv)]: every word is classified first, an
    ambiguous abbreviation is an error at once; a usage error is
    [SystemExit(2)], [--help] is [SystemExit(0)]. *)
Definition parse_args (p : ArgumentParser) (argv : list string)
  : result (gmap string value) :=
  if existsb (fun t => match parse_optional p t with Ambiguous => true | _ => false end)
       (before_separator argv)
  then Raise usage_error
  else
    (let* st := consume p argv (mk_parse_state (defaults p) [] []) in
     if existsb (fun a => required a && negb (existsb (String.eqb (dest a)) (seen st))) p
     then Raise usage_error
     else match extras st with
          | [] => Ok (namespace st)
          | _ :: _ => Raise usage_error
          end)%py.

End Argparse.

(** ** The training script [main.py] and the job that runs it *)

Module Training.

Import Argparse.

(** The parser built at the top of [main()]. *)
Definition parser : ArgumentParser :=
  let parser := new_parser in
  let parser := add_argument parser "--data" TStr false VNone in
  let parser := add_argument parser "--test_train_ratio" TFloat false (VFloat (25 # 100)) in
  let parser := add_argument parser "--n_estimators" TInt false (VInt 100) in
  let parser := add_argument parser "--learning_rate" TFloat false (VFloat (1 # 10)) in
  let parser := add_argument parser "--registered_model_name" TStr false VNone in
  parser.

(** [args = parser.parse_args()]. *)
Definition main_args (argv : list string) : result (gmap string value) :=
  parse_args parser argv.

(** The option strings declared with [add_argument]. *)
Definition declared_options (p : ArgumentParser) : list string :=
  List.flat_map option_strings (List.filter (fun a => match kind a with Store => true | Help => false end) p).

End Training.

Module Job.

Import Argparse.

(** [Input(type=..., path=...)]. *)
Record Input : Type := mk_Input { input_type : string; path : string }.

(** An input of the job: a data reference, or a literal kept as the
    text that [str] gives for it. *)
Inductive job_input : Type :=
| Data (i : Input)
| Literal (text : string).

Record Command : Type := mk_Command {
  inputs : list (string * job_input);
  code : string;
  command : string;
  environment : string;
  compute : string;
  experiment_name : string;
  display_name : string
}.

Definition registered_model_name : string := "credit_defaults_model".

(** [job = command(...)]. *)
Definition job : Command :=
  mk_Command
    [("data",
      Data (mk_Input "uri_file"
              "https://archive.ics.uci.edu/ml/machine-learning-databases/00350/default%20of%20credit%20card%20clients.xls"));
     ("test_train_ratio", Literal "0.2");
     ("learning_rate", Literal "0.25");
     ("registered_model_name", Literal registered_model_name)]
    "./src/"
    "python main.py --data ${{inputs.data}} --test_train_ratio ${{inputs.test_train_ratio}} --learning_rate ${{inputs.learning_rate}} --registered_model_name ${{inputs.registered_model_name}}"
    "aml-scikit-learn@latest"
    "cpu-cluster"
    "train_model_credit_default_prediction"
    "credit_default_prediction".

Fixpoint assoc {A : Type} (k : string) (l : list (string * A)) : option A :=
  match l with
  | [] => None
  | (k', v) :: l' => if String.eqb k k' then Some v else assoc k l'
  end.

Definition strip_prefix (pre s : string) : option string :=
  if String.prefix pre s
  then Some (String.substring (String.length pre) (String.length s - String.length pre) s)
  else None.

Section Render.

(** Where the compute node finds a data input. *)
Variable resolve : Input -> string.

(** The text that stands for [inputs.NAME] on the compute node. *)
Definition binding (c : Command) (expr : string) : option string :=
  match strip_prefix "inputs." expr with
  | Some name =>
      match assoc name (inputs c) with
      | Some (Data i) => Some (resolve i)
      | Some (Literal text) => Some text
      | None => None
      end
  | None => None
  end.

(** Every [${{expr}}] of the command is replaced by its binding;
    [inside] holds the expression read so far. *)
Fixpoint expand (c : Command) (inside : option string) (s : string) : option string :=
  match inside, s with
  | None, EmptyString => Some ""
  | None, String "$" (String "{" (String "{" r)) => expand c (Some "") r
  | None, String a r => option_map (String a) (expand c None r)
  | Some expr, String "}" (String "}" r) =>
      match binding c expr with
      | Some v => option_map (String.append v) (expand c None r)
      | None => None
      end
  | Some expr, String a r => expand c (Some (expr ++ String a "")) r
  | Some _, EmptyString => None
  end.

(** The shell splits the line at blanks; [cur] is the word being read. *)
Fixpoint words_from (cur : string) (s : string) : list string :=
  match s with
  | EmptyString => if String.eqb cur "" then [] else [cur]
  | String a r =>
      if Ascii.eqb a " "
      then (if String.eqb cur "" then words_from "" r else cur :: words_from "" r)
      else words_from (cur ++ String a "") r
  end.

Definition words (s : string) : list string := words_from "" s.

(** [sys.argv[1:]] of the script that the command line starts: the
    words after [python main.py]. *)
Definition script_argv (c : Command) : option (list string) :=
  match expand c None (command c) with
  | Some line =>
      match words line with
      | _ :: _ :: args => Some args
      | _ => None
      end
  | None => None
  end.

End Render.

End Job.

(** ** The cells that talk to the workspace *)

Module Workspace.

Record AmlCompute : Type := mk_AmlCompute {
  name : string;
  type : string;
  size : string;
  min_instances : Z;
  max_instances : Z;
  idle_time_before_scale_down : Z;
  tier : string
}.

Record Model : Type := mk_Model { model_name : string; version : string }.

Record ManagedOnlineDeployment : Type := mk_ManagedOnlineDeployment {
  deployment_name : string;
  endpoint_name : string;
  deployment_model : Model;
  instance_type : string;
  instance_count : Z
}.

(** What a cell does that can be seen from outside: the calls to the
    client, with their arguments, and the lines printed. *)
Inductive call : Type :=
| compute_get (name : string)
| compute_begin_create_or_update (c : AmlCompute)
| models_list (name : string)
| models_get (name : string) (version : Z)
| begin_create_or_update (d : ManagedOnlineDeployment)
| printed (line : string).

(** The remote service: each operation answers from the state of the
    workspace and may change it. *)
Record MLClient (W : Type) : Type := mk_MLClient {
  remote_compute_get : string -> W -> result AmlCompute * W;
  remote_compute_begin_create_or_update : AmlCompute -> W -> result AmlCompute * W;
  remote_models_list : string -> W -> result (list Model) * W;
  remote_models_get : string -> Z -> W -> result Model * W;
  remote_begin_create_or_update :
    ManagedOnlineDeployment -> W -> result ManagedOnlineDeployment * W
}.
Arguments remote_compute_get {W} _ _ _.
Arguments remote_compute_begin_create_or_update {W} _ _ _.
Arguments remote_models_list {W} _ _ _.
Arguments remote_models_get {W} _ _ _ _.
Arguments remote_begin_create_or_update {W} _ _ _.

Section Cells.

Variable W : Type.
Variable ml_client : MLClient W.

(** A cell runs on the workspace and the trace so far. *)
Definition M (A : Type) : Type := W * list call -> result A * (W * list call).

Definition ret {A : Type} (a : A) : M A := fun s => (Ok a, s).

Definition raise {A : Type} (e : exn) : M A := fun s => (Raise e, s).

Definition bindM {A B : Type} (m : M A) (k : A -> M B) : M B :=
  fun s =>
    match m s with
    | (Ok a, s') => k a s'
    | (Raise e, s') => (Raise e, s')
    end.

(** [try: body except cls: handler]. *)
Definition try_except {A : Type} (body : M A) (cls : string) (handler : M A) : M A :=
  fun s =>
    match body s with
    | (Ok a, s') => (Ok a, s')
    | (Raise e, s') => if isinstance e cls then handler s' else (Raise e, s')
    end.

Definition remote {A : Type} (c : call) (op : W -> result A * W) : M A :=
  fun s =>
    let (r, w') := op (fst s) in
    (r, (w', (snd s ++ [c])%list)).

Definition print (line : string) : M unit :=
  fun s => (Ok tt, (fst s, (snd s ++ [printed line])%list)).

Notation "'do' x <- m ; k" := (bindM m (fun x => k))
  (at level 10, x name, m at level 100, k at level 200).
Notation "m ;; k" := (bindM m (fun _ => k))
  (at level 100, k at level 200, right associativity).

(** *** Compute cluster *)

(** Name assigned to the compute cluster. *)
Definition cpu_compute_target : string := "cpu-cluster".

Definition new_cpu_cluster : AmlCompute :=
  mk_AmlCompute cpu_compute_target "amlcompute" "STANDARD_DS3_V2" 0 4 180 "Dedicated".

(** The cell [cpu_compute_target]. *)
Definition provision_compute : M AmlCompute :=
  do cpu_cluster <-
    try_except
      (do cpu_cluster <-
         remote (compute_get cpu_compute_target)
           (remote_compute_get ml_client cpu_compute_target);
       print ("You already have a cluster named " ++ cpu_compute_target
              ++ ", we'll reuse it as is.") ;;
       ret cpu_cluster)
      "Exception"
      (print "Creating a new cpu compute target..." ;;
       let cpu_cluster := new_cpu_cluster in
       remote (compute_begin_create_or_update cpu_cluster)
         (remote_compute_begin_create_or_update ml_client cpu_cluster));
  print ("AMLCompute with name " ++ name cpu_cluster
         ++ " is created, the compute size is " ++ size cpu_cluster) ;;
  ret cpu_cluster.

(** *** Latest model version and the blue deployment *)

Definition registered_model_name : string := Job.registered_model_name.

(** [int(s)] for every element, in order; the first failure raises. *)
Fixpoint ints (l : list string) : result (list Z) :=
  match l with
  | [] => Ok []
  | s :: l' =>
      match Builtins.py_int s with
      | Some z => (let* zs := ints l' in Ok (z :: zs))%py
      | None => Raise (ValueError ("invalid literal for int() with base 10: '" ++ s ++ "'"))
      end
  end.

(** [max(l)] on a list of integers. *)
Definition py_max (l : list Z) : result Z :=
  match l with
  | [] => Raise (ValueError "max() arg is an empty sequence")
  | z :: l' => Ok (List.fold_left Z.max l' z)
  end.

(** The cell [latest_model_version]. *)
Definition latest_model_version : M Z :=
  do models <- remote (models_list registered_model_name)
                 (remote_models_list ml_client registered_model_name);
  do versions <- (fun s => (ints (List.map version models), s));
  fun s => (py_max versions, s).

(** The cell [blue_deployment], for the endpoint name drawn earlier and
    the version picked by the cell above. *)
Definition blue_deployment (online_endpoint_name : string) (latest : Z)
  : M ManagedOnlineDeployment :=
  do model <- remote (models_get registered_model_name latest)
                (remote_models_get ml_client registered_model_name latest);
  let blue_deployment :=
    mk_ManagedOnlineDeployment "blue" online_endpoint_name model "Standard_DS3_v2" 1 in
  remote (begin_create_or_update blue_deployment)
    (remote_begin_create_or_update ml_client blue_deployment).

(** The two cells, one after the other. *)
Definition deploy_latest (online_endpoint_name : string) : M ManagedOnlineDeployment :=
  do latest <- latest_model_version;
  blue_deployment online_endpoint_name latest.

End Cells.

End Workspace.

(** ** The request payloads *)

Module Payloads.

Import Json.

Definition nl : string := String (chr 10) "".

(** A name between double quotes, as it stands in the text. *)
Definition q (s : string) : string := String dquote (s ++ String dquote "").

(** The file [sample-request.json] written by the first notebook, line
    by line. *)
Definition sample_request : string :=
  String.concat nl
    ["{";
     "  " ++ q "input_data" ++ ": {";
     "    " ++ q "columns" ++ ": [0,1,2,3,4,5,6,7,8,9,10,11,12,13,14,15,16,17,18,19,20,21,22],";
     "    " ++ q "index" ++ ": [0, 1],";
     "    " ++ q "data" ++ ": [";
     "            [20000,2,2,1,24,2,2,-1,-1,-2,-2,3913,3102,689,0,0,0,0,689,0,0,0,0],";
     "            [10, 9, 8, 7, 6, 5, 4, 3, 2, 1, 10, 9, 8, 7, 6, 5, 4, 3, 2, 1, 10, 9, 8]";
     "        ]";
     "  }";
     "}"].

(** The request text of the second notebook: three pieces around
    [test_data_json]; a backslash before the end of a line joins the
    lines of a Python string literal. *)
Definition bankmarketing_request (test_data_json : string) : string :=
  ("{ " ++ "          " ++ q "Inputs" ++ ": {" ++ q "data" ++ ": ")
  ++ test_data_json
  ++ ("}, " ++ "          " ++ q "GlobalParameters" ++ ": { " ++ q "method" ++ ": "
      ++ q "predict" ++ " } " ++ "        }").

End Payloads.

(** ** Sample instances

    A stand-in for the classifier and for the conversions of floats, on
    which the statements below are run. *)

Module Samples.

Import Numpy Pandas.

(** [true] scores every row as (0.25, 0.75); [false] fails. *)
Definition sample_predict_proba (clf : bool) (data : DataFrame) : result ndarray :=
  if clf
  then Ok (mk_ndarray 2 (List.repeat [25 # 100; 75 # 100]%Q (df_rows data)))
  else Raise (RuntimeError "boom").

Definition sample_float_repr (x : Q) : string :=
  if Qeq_bool x (75 # 100) then "0.75" else "0.25".

Definition sample_DataFrame_str (df : DataFrame) : string := "<frame>".

Definition sample_batch : DataFrame :=
  mk_DataFrame [("age", [CInt 63; CInt 41]); ("sex", [CInt 1; CInt 0])] 2.

Definition sample_context : Scoring.PythonModelContext :=
  Scoring.mk_PythonModelContext ∅.

(** A workspace without state whose lookup of the cluster is
    interrupted from the keyboard; nothing else fails. *)
Definition interrupted_client : Workspace.MLClient unit :=
  Workspace.mk_MLClient unit
    (fun _ w => (Raise KeyboardInterrupt, w))
    (fun c w => (Ok c, w))
    (fun _ w => (Ok [], w))
    (fun name v w => (Ok (Workspace.mk_Model name (Json.int_repr v)), w))
    (fun d w => (Ok d, w)).

(** A workspace whose state is the list of registered models and of the
    clusters created so far. *)
Definition registry_client :
  Workspace.MLClient (list Workspace.Model * list Workspace.AmlCompute) :=
  Workspace.mk_MLClient _
    (fun name w =>
       match List.find (fun c => String.eqb (Workspace.name c) name) (snd w) with
       | Some c => (Ok c, w)
       | None => (Raise (mk_exn ("ResourceNotFoundError" :: "HttpResponseError"
                                   :: "AzureError" :: Exception_mro) name), w)
       end)
    (fun c w => (Ok c, (fst w, c :: snd w)))
    (fun name w =>
       (Ok (List.filter (fun m => String.eqb (Workspace.model_name m) name) (fst w)), w))
    (fun name v w =>
       match List.find (fun m => String.eqb (Workspace.model_name m) name
                                 && String.eqb (Workspace.version m) (Json.int_repr v))
               (fst w) with
       | Some m => (Ok m, w)
       | None => (Raise (mk_exn ("ResourceNotFoundError" :: "HttpResponseError"
                                   :: "AzureError" :: Exception_mro) name), w)
       end)
    (fun d w => (Ok d, w)).

Definition sample_registry : list Workspace.Model :=
  [Workspace.mk_Model "credit_defaults_model" "1";
   Workspace.mk_Model "credit_defaults_model" "10";
   Workspace.mk_Model "credit_defaults_model" "9"].

(** What [sample_predict_proba true] returns on [sample_batch]. *)
Definition sample_matrix : ndarray :=
  mk_ndarray 2 [[25 # 100; 75 # 100]; [25 # 100; 75 # 100]]%Q.

End Samples.

(** ** More sample instances *)

Module MoreSamples.

Import Numpy Pandas.

(** A classifier given by the number of its classes: every row is scored
    with the same probability for each class; without class the matrix
    has no column. *)
Definition uniform_predict_proba (classes : nat) (data : DataFrame) : result ndarray :=
  Ok (mk_ndarray classes
        (List.repeat (List.repeat (Qmake 1 (Pos.of_nat classes)) classes) (df_rows data))).

Definition empty_batch : DataFrame := mk_DataFrame [("age", []); ("sex", [])] 0.

(** The same, but the classifier without class is not fitted and
    refuses to predict. *)
Definition fitted_predict_proba (classes : nat) (data : DataFrame) : result ndarray :=
  if Nat.eqb classes 0
  then Raise (mk_exn ("NotFittedError" :: "ValueError" :: Exception_mro) "need to call fit")
  else uniform_predict_proba classes data.

(** Loading succeeds for one path only. *)
Definition sample_load_model (clf : nat) (path : string) : result nat :=
  if String.eqb path "xgb.model" then Ok 2%nat
  else Raise (mk_exn ("XGBoostError" :: "ValueError" :: Exception_mro) path).



End MoreSamples.

(** ** The names of the online endpoints *)

Module Naming.

(** The digit of value [d], for bases up to sixteen, as [%x] and [%d]
    print it. *)
Definition digit_char (d : N) : ascii :=
  match String.get (N.to_nat d) "0123456789abcdef" with
  | Some c => c
  | None => "0"%char
  end.

(** The [k] lowest digits of [n] in base [b], most significant first:
    what [%0kx] and [%0kd] print when [n < b ^ k]. *)
Fixpoint digits (b : N) (k : nat) (n : N) : string :=
  match k with
  | O => ""
  | S k' => String (digit_char ((n / b ^ N.of_nat k') mod b)) (digits b k' n)
  end.

(** [UUID.__str__], on the 128-bit integer of the identifier. *)
Definition str_uuid (int : N) : string :=
  let hex := digits 16 32 int in
  substring 0 8 hex ++ "-" ++ substring 8 4 hex ++ "-" ++ substring 12 4 hex
    ++ "-" ++ substring 16 4 hex ++ "-" ++ substring 20 12 hex.

(** The fields of a [datetime.datetime] that [strftime] reads. *)
Record datetime := mk_datetime {
  year : N;
  month : N;
  day : N;
  hour : N;
  minute : N;
  second : N;
  microsecond : N
}.

(** The ranges that the constructor of [datetime] enforces (the length
    of the month apart). *)
Definition in_range (d : datetime) : Prop :=
  (1 <= month d <= 12 /\ 1 <= day d <= 31 /\ hour d < 24 /\ minute d < 60 /\
   second d < 60 /\ microsecond d < 1000000)%N.

Definition directive (c : ascii) (d : datetime) : option string :=
  if Ascii.eqb c "m" then Some (digits 10 2 (month d))
  else if Ascii.eqb c "d" then Some (digits 10 2 (day d))
  else if Ascii.eqb c "H" then Some (digits 10 2 (hour d))
  else if Ascii.eqb c "M" then Some (digits 10 2 (minute d))
  else if Ascii.eqb c "S" then Some (digits 10 2 (second d))
  else if Ascii.eqb c "f" then Some (digits 10 6 (microsecond d))
  else if Ascii.eqb c "%" then Some "%"
  else None.

(** [datetime.strftime] for the directives above; [None] stands for a
    format outside this fragment. *)
Fixpoint strftime (format : string) (d : datetime) : option string :=
  match format with
  | "" => Some ""
  | String c rest =>
      if Ascii.eqb c "%" then
        match rest with
        | "" => None
        | String c' rest' =>
            match directive c' d, strftime rest' d with
            | Some a, Some b => Some (a ++ b)
            | _, _ => None
            end
        end
      else option_map (String c) (strftime rest d)
  end.

Module Credit.

Definition online_endpoint_name (uuid4 : N) : string :=
  "credit-endpoint-" ++ substring 0 8 (str_uuid uuid4).

End Credit.

Module Bankmarketing.

Definition online_endpoint_name (now : datetime) : option string :=
  option_map (String.append "bankmarketing-") (strftime "%m%d%H%M%f" now).

End Bankmarketing.

End Naming.

(** * Properties *)

(** ** The two reductions *)

Module NumpyFacts.

Import Numpy.

Lemma traverse_length {A B : Type} (f : A -> option B) (l : list A) (bs : list B) :
  traverse f l = Some bs -> List.length bs = List.length l.
Proof.
  revert bs. induction l as [|a l IH]; simpl; intros bs H.
  - inversion H. reflexivity.
  - destruct (f a); [|discriminate].
    destruct (traverse f l) as [bs'|]; [|discriminate].
    inversion H. simpl. f_equal. apply IH. reflexivity.
Qed.

Lemma traverse_nth {A B : Type} (f : A -> option B) (l : list A) (bs : list B) :
  traverse f l = Some bs ->
  forall i a, nth_error l i = Some a ->
  exists b, nth_error bs i = Some b /\ f a = Some b.
Proof.
  revert bs. induction l as [|x l IH]; simpl; intros bs H i a Hi.
  - destruct i; discriminate.
  - destruct (f x) as [b|] eqn:Hx; [|discriminate].
    destruct (traverse f l) as [bs'|]; [|discriminate].
    inversion H; subst bs. destruct i as [|i]; simpl in *.
    + inversion Hi; subst. exists b. split; [reflexivity|assumption].
    + apply (IH bs' eq_refl i a Hi).
Qed.

Lemma traverse_total {A B : Type} (f : A -> option B) (l : list A) :
  Forall (fun a => exists b, f a = Some b) l ->
  exists bs, traverse f l = Some bs.
Proof.
  induction 1 as [|a l [b Hb] _ [bs Hbs]]; simpl.
  - exists []. reflexivity.
  - rewrite Hb, Hbs. exists (b :: bs). reflexivity.
Qed.

Lemma max_from_ge_init (l : list Q) (mp : Q) : (mp <= max_from mp l)%Q.
Proof.
  revert mp. induction l as [|x l IH]; simpl; intros mp.
  - apply Qle_refl.
  - destruct (Qle_bool x mp) eqn:E.
    + apply IH.
    + apply Qle_trans with x; [|apply IH].
      apply Qlt_le_weak, Qnot_le_lt. rewrite <- Qle_bool_iff, E. discriminate.
Qed.

Lemma max_from_upper (l : list Q) (mp x : Q) :
  In x l -> (x <= max_from mp l)%Q.
Proof.
  revert mp. induction l as [|y l IH]; simpl; intros mp Hin; [contradiction|].
  destruct Hin as [->|Hin].
  - destruct (Qle_bool x mp) eqn:E.
    + apply Qle_trans with mp; [apply Qle_bool_iff, E | apply max_from_ge_init].
    + apply max_from_ge_init.
  - destruct (Qle_bool y mp); apply IH, Hin.
Qed.

Lemma max_from_in (l : list Q) (mp : Q) :
  max_from mp l = mp \/ In (max_from mp l) l.
Proof.
  revert mp. induction l as [|x l IH]; simpl; intros mp; [left; reflexivity|].
  destruct (Qle_bool x mp).
  - destruct (IH mp) as [H|H]; [left|right; right]; assumption.
  - destruct (IH x) as [H|H]; right; [left; symmetry|right]; assumption.
Qed.

(** The index returned points at the value returned by the maximum. *)
Lemma argmax_from_nth (l pre : list Q) (mp : Q) (best i : nat) :
  List.length pre = i ->
  nth_error (pre ++ l)%list best = Some mp ->
  (best < i)%nat ->
  nth_error (pre ++ l)%list (argmax_from mp best i l) = Some (max_from mp l).
Proof.
  revert pre mp best i. induction l as [|x l IH]; simpl; intros pre mp best i Hlen Hb Hlt.
  - assumption.
  - assert (Happ : (pre ++ x :: l = (pre ++ [x]) ++ l)%list)
      by (rewrite <- List.app_assoc; reflexivity).
    destruct (Qle_bool x mp).
    + rewrite Happ. apply IH.
      * rewrite List.length_app. simpl. lia.
      * rewrite <- Happ. assumption.
      * lia.
    + rewrite Happ. apply IH.
      * rewrite List.length_app. simpl. lia.
      * rewrite <- Happ, nth_error_app2 by lia.
        replace (i - List.length pre)%nat with 0%nat by lia. reflexivity.
      * lia.
Qed.

(** Every value before the index returned is strictly below the
    maximum: the first occurrence is the one returned. *)
Lemma argmax_from_first (l pre : list Q) (mp : Q) (best i : nat) :
  List.length pre = i ->
  (best < i)%nat ->
  (forall j y, (j < best)%nat -> nth_error pre j = Some y -> (y < mp)%Q) ->
  (forall y, In y pre -> (y <= mp)%Q) ->
  forall j y, (j < argmax_from mp best i l)%nat ->
    nth_error (pre ++ l)%list j = Some y -> (y < max_from mp l)%Q.
Proof.
  revert pre mp best i. induction l as [|x l IH]; simpl;
    intros pre mp best i Hlen Hlt Hbefore Hall j y Hj Hy.
  - rewrite List.app_nil_r in Hy. eapply Hbefore; eassumption.
  - assert (Happ : (pre ++ x :: l = (pre ++ [x]) ++ l)%list)
      by (rewrite <- List.app_assoc; reflexivity).
    rewrite Happ in Hy.
    destruct (Qle_bool x mp) eqn:E.
    + eapply (IH (pre ++ [x])%list mp best (S i)); try eassumption.
      * rewrite List.length_app. simpl. lia.
      * lia.
      * intros j' y' Hj' Hy'. rewrite nth_error_app1 in Hy' by lia.
        eapply Hbefore; eassumption.
      * intros y' Hin. apply List.in_app_or in Hin.
        destruct Hin as [Hin|[<-|[]]]; [apply Hall, Hin | apply Qle_bool_iff, E].
    + assert (Hx : (mp < x)%Q).
      { apply Qnot_le_lt. rewrite <- Qle_bool_iff, E. discriminate. }
      eapply (IH (pre ++ [x])%list x i (S i)); try eassumption.
      * rewrite List.length_app. simpl. lia.
      * lia.
      * intros j' y' Hj' Hy'. rewrite nth_error_app1 in Hy' by lia.
        apply Qle_lt_trans with mp; [|assumption].
        apply Hall. eapply nth_error_In, Hy'.
      * intros y' Hin. apply List.in_app_or in Hin.
        destruct Hin as [Hin|[<-|[]]]; [|apply Qle_refl].
        apply Qlt_le_weak, Qle_lt_trans with mp; [apply Hall, Hin | assumption].
Qed.

(** What [argmax] and [max] return on one row that is not empty. *)
Lemma row_reductions (row : list Q) :
  row <> [] ->
  exists c p,
    argmax_row row = Some c /\ max_row row = Some p /\
    nth_error row c = Some p /\
    (forall x, In x row -> (x <= p)%Q) /\
    (forall j y, (j < c)%nat -> nth_error row j = Some y -> (y < p)%Q).
Proof.
  destruct row as [|x l]; [congruence|]. intros _.
  exists (argmax_from x 0 1 l), (max_from x l). simpl.
  split; [reflexivity|]. split; [reflexivity|]. split; [|split].
  - apply (argmax_from_nth l [x] x 0 1); [reflexivity|reflexivity|lia].
  - intros y [<-|Hin]; [apply max_from_ge_init | apply max_from_upper, Hin].
  - intros j y Hj Hy.
    apply (argmax_from_first l [x] x 0 1) with (j := j); try assumption.
    + reflexivity.
    + lia.
    + intros j' y' Hj'. lia.
    + intros y' [<-|[]]. apply Qle_refl.
Qed.

(** On a matrix with one column at least, both reductions return one
    value per row. *)
Lemma reductions_total (m : ndarray) :
  well_shaped m -> (0 < ncols m)%nat ->
  exists classes confidence,
    argmax_axis1 m = Ok classes /\ max_axis1 m = Ok confidence /\
    List.length classes = nrows m /\ List.length confidence = nrows m /\
    traverse argmax_row (rows m) = Some classes /\
    traverse max_row (rows m) = Some confidence.
Proof.
  intros Hws Hk.
  assert (Hne : Forall (fun r : list Q => r <> []) (rows m)).
  { eapply Forall_impl; [|exact Hws]. simpl. intros r Hr ->. simpl in Hr. lia. }
  destruct (traverse_total argmax_row (rows m)) as [cs Hcs].
  { eapply Forall_impl; [|exact Hne]. simpl. intros r Hr.
    destruct (row_reductions r Hr) as (c & p & Hc & _). exists c. exact Hc. }
  destruct (traverse_total max_row (rows m)) as [ps Hps].
  { eapply Forall_impl; [|exact Hne]. simpl. intros r Hr.
    destruct (row_reductions r Hr) as (c & p & _ & Hp & _). exists p. exact Hp. }
  exists cs, ps. unfold argmax_axis1, max_axis1, nrows.
  destruct (Nat.eqb_spec (ncols m) 0) as [E|_]; [lia|].
  rewrite Hcs, Hps.
  repeat split; eauto using traverse_length.
Qed.

End NumpyFacts.

(** ** The scoring script and the wrapper *)

Module ScoringFacts.

Import Numpy Pandas Json Scoring NumpyFacts.

Section Facts.

Variable XGBClassifier : Type.
Variable predict_proba : XGBClassifier -> DataFrame -> result ndarray.
Variable float_repr : Q -> string.
Variable DataFrame_str : DataFrame -> string.

Abbreviation run := (Scoring.run XGBClassifier predict_proba float_repr DataFrame_str).
Abbreviation predict := (Scoring.predict XGBClassifier predict_proba).
Abbreviation loaded clf := (mk_ModelWrapper XGBClassifier (Some clf)).

(** The frame built from the two lists. *)
Definition result_frame (classes : list nat) (confidence : list Q) : DataFrame :=
  mk_DataFrame
    [("class", List.map CInt (tolist_int classes));
     ("confidence", List.map CFloat confidence)]
    (List.length classes).

(** The dictionary handed to [json.dumps]. *)
Definition result_dict (classes : list nat) (confidence : list Q) : pyobj :=
  PyDict [("class", PyList (List.map PyInt (tolist_int classes)));
          ("confidence", PyList (List.map PyFloat confidence))].

(** Both entry points return the two reductions of the matrix. *)
Lemma outputs (clf : XGBClassifier) (context : PythonModelContext)
    (data : DataFrame) (m : ndarray) :
  predict_proba clf data = Ok m ->
  well_shaped m -> (0 < ncols m)%nat ->
  exists classes confidence,
    traverse argmax_row (rows m) = Some classes /\
    traverse max_row (rows m) = Some confidence /\
    List.length classes = nrows m /\ List.length confidence = nrows m /\
    predict (loaded clf) context data = (Ok (result_frame classes confidence), loaded clf) /\
    run (Some clf) data = (Ok (dumps float_repr (result_dict classes confidence)), []).
Proof.
  intros Hm Hws Hk.
  destruct (reductions_total m Hws Hk) as (cs & ps & Ha & Hx & Hlc & Hlp & Hcs & Hps).
  exists cs, ps. repeat split; try assumption.
  - unfold Scoring.predict. simpl. rewrite Hm. simpl. rewrite Ha. simpl. rewrite Hx. simpl.
    unfold tolist_int. rewrite !List.length_map, Hlc, Hlp, Nat.eqb_refl. simpl.
    unfold result_frame, tolist_int. rewrite Hlc. reflexivity.
  - unfold Scoring.run, run_body. rewrite Hm. simpl. rewrite Ha. simpl. rewrite Hx. reflexivity.
Qed.

(** X2: without a column there is nothing to reduce: numpy raises
    [ValueError], and so do both entry points. *)
Lemma no_column (clf : XGBClassifier) (context : PythonModelContext)
    (data : DataFrame) (m : ndarray) :
  predict_proba clf data = Ok m -> ncols m = 0%nat ->
  fst (predict (loaded clf) context data)
    = Raise (ValueError "attempt to get argmax of an empty sequence") /\
  fst (run (Some clf) data)
    = Raise (ValueError "attempt to get argmax of an empty sequence").
Proof.
  intros Hm Hk. unfold Scoring.predict, Scoring.run, run_body, argmax_axis1. simpl.
  rewrite Hm. simpl. rewrite Hk. split; reflexivity.
Qed.


(** C2: the frame returned by [predict] has one row per input row and
    exactly the columns [class] and [confidence]. *)
Theorem predict_frame_shape (clf : XGBClassifier) (context : PythonModelContext)
    (data : DataFrame) (m : ndarray) :
  predict_proba clf data = Ok m ->
  well_shaped m -> (0 < ncols m)%nat ->
  nrows m = df_rows data ->
  exists df,
    fst (predict (loaded clf) context data) = Ok df /\
    df_rows df = df_rows data /\
    column_names df = ["class"; "confidence"] /\
    Forall (fun col => List.length (snd col) = df_rows data) (df_columns df).
Proof.
  intros Hm Hws Hk Hn.
  destruct (outputs clf context data m Hm Hws Hk)
    as (cs & ps & _ & _ & Hlc & Hlp & Hpred & _).
  exists (result_frame cs ps). rewrite Hpred. simpl.
  split; [reflexivity|]. split; [congruence|]. split; [reflexivity|].
  unfold tolist_int. repeat constructor; simpl; rewrite ?List.length_map; congruence.
Qed.


(** C5, as the code has it: [predict] raises what [predict_proba]
    raises; [run] does so unless the exception is a [RuntimeError],
    which it logs and turns into the text it returns. *)
Theorem exceptions_of_predict_proba (clf : XGBClassifier)
    (context : PythonModelContext) (data : DataFrame) (e : exn) :
  predict_proba clf data = Raise e ->
  fst (predict (loaded clf) context data) = Raise e /\
  (isinstance e "RuntimeError" = false -> run (Some clf) data = (Raise e, [])) /\
  (isinstance e "RuntimeError" = true ->
   run (Some clf) data =
     (Ok ("Input " ++ DataFrame_str data ++ ". Exception was: " ++ str_exn e),
      ["[ERR] Exception happened: " ++ str_exn e])).
Proof.
  intros He. unfold Scoring.predict, Scoring.run, run_body. simpl. rewrite He. simpl.
  split; [reflexivity|]. split; intros ->; reflexivity.
Qed.

End Facts.

End ScoringFacts.

(** ** The reader of JSON text *)

Module JsonFacts.

Import Json.

Lemma run_app (a b : string) (st : state) :
  run st (a ++ b) =
  match run st a with
  | Some st' => run st' b
  | None => None
  end.
Proof.
  revert st. induction a as [|c a IH]; simpl; intros st; [reflexivity|].
  destruct (step st c); [apply IH|reflexivity].
Qed.

(** *** A document inside a larger text

    Reading a text below open containers [B] goes as reading it alone,
    and the document it holds ends up in the container on top of [B]. *)

Definition accepting (B : list frame) : Prop :=
  match B with
  | FArr _ :: _ | FObjV _ _ :: _ => True
  | _ => False
  end.

Definition lift (B : list frame) (st : state) : option state :=
  match st_mode st with
  | Done v => push_value v B
  | m => Some (mk_state m (st_stack st ++ B)%list)
  end.

Section Lift.

Variable B : list frame.
Hypothesis HB : accepting B.

Lemma push_value_lift (v : json) (stk : list frame) (st' : state) :
  push_value v stk = Some st' -> push_value v (stk ++ B)%list = lift B st'.
Proof.
  destruct stk as [|[acc|acc|acc k] stk]; simpl; intros H; inversion H; reflexivity.
Qed.

Lemma close_top_lift (c : ascii) (stk : list frame) (st' : state) :
  close_top c stk = Some st' -> close_top c (stk ++ B)%list = lift B st'.
Proof.
  destruct stk as [|[acc|acc|acc k] stk]; simpl; try discriminate;
    destruct (Ascii.eqb c _); try discriminate; apply push_value_lift.
Qed.

Lemma step_after_lift (c : ascii) (stk : list frame) (st' : state) :
  step_after c stk = Some st' -> step_after c (stk ++ B)%list = lift B st'.
Proof.
  unfold step_after. destruct (is_ws c).
  - intros H; inversion H. reflexivity.
  - destruct (Ascii.eqb c ",").
    + destruct stk as [|[acc|acc|acc k] stk]; simpl; intros H; inversion H; reflexivity.
    + apply close_top_lift.
Qed.

Lemma end_string_lift (s : string) (stk : list frame) (st' : state) :
  end_string s stk = Some st' -> end_string s (stk ++ B)%list = lift B st'.
Proof.
  destruct stk as [|[acc|acc|acc k] stk]; simpl; intros H; inversion H; try reflexivity.
  destruct B as [|[acc|acc|acc k] B']; simpl in HB; try contradiction; reflexivity.
Qed.

Lemma step_value_lift (c : ascii) (stk : list frame) (st' : state) :
  step_value c stk = Some st' -> step_value c (stk ++ B)%list = lift B st'.
Proof.
  unfold step_value.
  repeat match goal with
         | |- context [if ?b then _ else _] => destruct b
         end; intros H; inversion H; reflexivity.
Qed.

Lemma step_key_lift (c : ascii) (stk : list frame) (st' : state) :
  step_key c stk = Some st' -> step_key c (stk ++ B)%list = lift B st'.
Proof.
  unfold step_key.
  repeat match goal with
         | |- context [if ?b then _ else _] => destruct b
         end; intros H; inversion H; reflexivity.
Qed.

Lemma push_value_accepting (v : json) :
  exists B', push_value v B = Some (mk_state After B').
Proof.
  destruct B as [|[acc|acc|acc k] B']; simpl in HB; try contradiction; eexists; reflexivity.
Qed.

Lemma step_lift (st st' : state) (c : ascii) :
  step st c = Some st' ->
  match lift B st with
  | Some l => step l c
  | None => None
  end = lift B st'.
Proof.
  destruct st as [m stk]. destruct m; unfold step, lift; simpl.
  - apply step_value_lift.
  - destruct (Ascii.eqb c "]"); [apply close_top_lift|].
    destruct (is_ws c); [intros H; inversion H; reflexivity | apply step_value_lift].
  - destruct (Ascii.eqb c "}"); [apply close_top_lift|].
    destruct (is_ws c); [intros H; inversion H; reflexivity | apply step_key_lift].
  - apply step_key_lift.
  - destruct (is_ws c); [intros H; inversion H; reflexivity|].
    destruct (Ascii.eqb c ":"); intros H; inversion H; reflexivity.
  - destruct (Ascii.eqb c dquote); [apply end_string_lift|].
    destruct (Ascii.eqb c "\"); [intros H; inversion H; reflexivity|].
    destruct (nat_of_ascii c <? 32)%nat; intros H; inversion H; reflexivity.
  - destruct (unescape c); intros H; inversion H; reflexivity.
  - destruct (is_delim c) eqn:Hd; [|intros H; inversion H; reflexivity].
    destruct (classify lex) as [v|]; [|discriminate].
    destruct (push_value v stk) as [[m' stk']|] eqn:Hp; [|discriminate].
    rewrite (push_value_lift _ _ _ Hp).
    destruct m'; try discriminate; unfold lift; simpl.
    + apply step_after_lift.
    + destruct (is_ws c) eqn:Hw; [|discriminate].
      destruct stk as [|[acc|acc|acc k] stk]; simpl in Hp; inversion Hp; subst.
      intros H; inversion H; subst. simpl.
      destruct (push_value_accepting v0) as [B' ->].
      unfold step_after. rewrite Hw. reflexivity.
  - apply step_after_lift.
  - destruct (is_ws c) eqn:Hw; [|discriminate].
    intros H; inversion H; subst. simpl.
    destruct (push_value_accepting v) as [B' ->]. simpl.
    unfold step_after. rewrite Hw. reflexivity.
Qed.

Lemma run_lift (s : string) (st st' : state) :
  run st s = Some st' ->
  match lift B st with
  | Some l => run l s
  | None => None
  end = lift B st'.
Proof.
  revert st. induction s as [|c s IH]; simpl; intros st H.
  - inversion H; subst. destruct (lift B st'); reflexivity.
  - destruct (step st c) as [st1|] eqn:Hs; [|discriminate].
    pose proof (step_lift _ _ _ Hs) as Hl.
    specialize (IH _ H).
    destruct (lift B st) as [l|]; [|rewrite <- Hl in IH; exact IH].
    rewrite Hl. exact IH.
Qed.

(** A text that reads alone as the document [v] delivers [v] where a
    value is expected. *)
Lemma run_document (s : string) (v : json) :
  run initial s = Some (mk_state (Done v) []) ->
  run (mk_state Value B) s = push_value v B.
Proof.
  intros H. apply run_lift in H. exact H.
Qed.

End Lift.

Lemma classify_not_container (lex : string) (v : json) :
  classify lex = Some v ->
  match v with JArr _ | JObj _ | JStr _ => False | _ => True end.
Proof.
  unfold classify.
  repeat match goal with
         | |- context [if ?b then _ else _] => destruct b
         end; intros H; inversion H; exact I.
Qed.

(** A text that [loads] reads as an array was read to its end. *)
Lemma loads_array (s : string) (l : list json) :
  loads s = Some (JArr l) -> run initial s = Some (mk_state (Done (JArr l)) []).
Proof.
  unfold loads, finish. destruct (run initial s) as [[m stk]|]; [|discriminate]. simpl.
  destruct m; try discriminate.
  - destruct stk; [|discriminate]. intros H. apply classify_not_container in H. contradiction.
  - destruct stk; [|discriminate]. intros H; inversion H. reflexivity.
Qed.

End JsonFacts.

(** ** The request payloads *)

Module PayloadFacts.

Import Json JsonFacts Payloads.

Lemma bankmarketing_prefix :
  run initial ("{ " ++ "          " ++ q "Inputs" ++ ": {" ++ q "data" ++ ": ")
  = Some (mk_state Value [FObjV [] "data"; FObjV [] "Inputs"]).
Proof. vm_compute. reflexivity. Qed.

Lemma bankmarketing_suffix (records : list json) :
  match push_value (JArr records) [FObjV [] "data"; FObjV [] "Inputs"] with
  | Some st =>
      run st
        ("}, " ++ "          " ++ q "GlobalParameters" ++ ": { " ++ q "method" ++ ": "
         ++ q "predict" ++ " } " ++ "        }")
  | None => None
  end
  = Some (mk_state
            (Done (JObj [("Inputs", JObj [("data", JArr records)]);
                         ("GlobalParameters", JObj [("method", JStr "predict")])])) []).
Proof. vm_compute. reflexivity. Qed.

(** C8: [sample-request.json] is an object with the single key
    [input_data], which holds [columns], [index] and [data], a list of
    rows; the bankmarketing request is an object with the keys [Inputs],
    which holds [data], and [GlobalParameters], which holds
    [method: predict], whatever array the test data was written as. *)
Theorem payload_shapes (test_data_json : string) (records : list json) :
  loads test_data_json = Some (JArr records) ->
  (exists columns index rows,
     loads sample_request =
       Some (JObj [("input_data",
                    JObj [("columns", JArr columns);
                          ("index", JArr index);
                          ("data", JArr (List.map JArr rows))])])) /\
  loads (bankmarketing_request test_data_json) =
    Some (JObj [("Inputs", JObj [("data", JArr records)]);
                ("GlobalParameters", JObj [("method", JStr "predict")])]).
Proof.
  intros Hdata. split.
  - eexists _, _, [_; _]. vm_compute. reflexivity.
  - unfold loads, bankmarketing_request.
    rewrite run_app, bankmarketing_prefix, run_app.
    rewrite (run_document [FObjV [] "data"; FObjV [] "Inputs"] I _ _
               (loads_array _ _ Hdata)).
    rewrite bankmarketing_suffix. reflexivity.
Qed.

(** The statement on a test set of two records. *)
Lemma payload_shapes_witness :
  exists records,
    loads (bankmarketing_request
             ("[" ++ nl ++ "    {" ++ nl ++ "        " ++ q "age" ++ ":57," ++ nl
              ++ "        " ++ q "job" ++ ":" ++ q "technician" ++ nl ++ "    }," ++ nl
              ++ "    {" ++ nl ++ "        " ++ q "age" ++ ":33," ++ nl
              ++ "        " ++ q "job" ++ ":" ++ q "admin." ++ nl ++ "    }" ++ nl ++ "]"))
    = Some (JObj [("Inputs", JObj [("data", JArr records)]);
                  ("GlobalParameters", JObj [("method", JStr "predict")])]).
Proof.
  eexists. refine (proj2 (payload_shapes _ _ _)). vm_compute. reflexivity.
Defined.

End PayloadFacts.

(** ** Reading back what [json.dumps] wrote *)

Module DumpsFacts.

Import Json JsonFacts.

Fixpoint string_forallb (p : ascii -> bool) (s : string) : bool :=
  match s with
  | EmptyString => true
  | String c s' => p c && string_forallb p s'
  end.

(** The characters that may start a number or a literal. *)
Definition atom_start (c : ascii) : bool :=
  negb (is_ws c) && negb (Ascii.eqb c "[") && negb (Ascii.eqb c "{")
  && negb (Ascii.eqb c dquote) && negb (is_delim c || Ascii.eqb c ":").

Definition atom_text (l : string) : bool :=
  match l with
  | String c s => atom_start c && string_forallb (fun c => negb (is_delim c)) s
  | EmptyString => false
  end.

(** The text [l] is read as the value [v]. *)
Definition lexeme_of (l : string) (v : json) : Prop :=
  atom_text l = true /\ classify l = Some v.

Definition number_char (c : ascii) : bool :=
  is_digit c || Ascii.eqb c "-" || Ascii.eqb c "+" || Ascii.eqb c "."
  || Ascii.eqb c "e" || Ascii.eqb c "E".

Definition int_char (c : ascii) : bool := is_digit c || Ascii.eqb c "-".

Ltac each_char c := destruct c as [[] [] [] [] [] [] [] []]; vm_compute; reflexivity.

Lemma number_char_atom (c : ascii) :
  implb (number_char c) (atom_start c && negb (is_delim c) && negb (Ascii.eqb c "t")
                         && negb (Ascii.eqb c "f") && negb (Ascii.eqb c "n")) = true.
Proof. each_char c. Qed.

Lemma int_char_plain (c : ascii) :
  implb (int_char c)
    (negb (Ascii.eqb c "." || Ascii.eqb c "e" || Ascii.eqb c "E")) = true.
Proof. each_char c. Qed.

Lemma digit_int_char (c : ascii) : is_digit c = true -> int_char c = true.
Proof. unfold int_char. intros ->. reflexivity. Qed.

Lemma digit_number_char (c : ascii) : is_digit c = true -> number_char c = true.
Proof. unfold number_char. intros ->. reflexivity. Qed.

Lemma string_app_assoc (a b c : string) : ((a ++ b) ++ c = a ++ (b ++ c))%string.
Proof.
  induction a as [|x a IH]; [reflexivity|].
  change (String x ((a ++ b) ++ c) = String x (a ++ (b ++ c))). f_equal. exact IH.
Qed.

Lemma string_app_nil_r (a : string) : (a ++ "" = a)%string.
Proof.
  induction a as [|x a IH]; [reflexivity|].
  change (String x (a ++ "") = String x a). f_equal. exact IH.
Qed.

Lemma string_forallb_impl (p p' : ascii -> bool) (s : string) :
  (forall c, p c = true -> p' c = true) ->
  string_forallb p s = true -> string_forallb p' s = true.
Proof.
  intros Hpp. induction s as [|c s IH]; simpl; [reflexivity|].
  rewrite !andb_true_iff. intros [Hc Hs]. split; [apply Hpp, Hc | apply IH, Hs].
Qed.

(** *** Numbers and literals inside an array *)

Lemma step_start (m : mode) (stk : list frame) (c : ascii) :
  m = Value \/ m = ArrFirst ->
  atom_start c = true ->
  step (mk_state m stk) c = Some (mk_state (Atom (String c "")) stk).
Proof.
  unfold atom_start. rewrite !andb_true_iff, !negb_true_iff.
  intros Hm ((((Hws & Hb) & Hc) & Hq) & Hd).
  assert (Hclose : Ascii.eqb c "]" = false).
  { apply orb_false_iff in Hd. destruct Hd as [Hd _]. unfold is_delim in Hd.
    rewrite !orb_false_iff in Hd. tauto. }
  destruct Hm as [-> | ->]; unfold step, step_value; simpl;
    rewrite ?Hclose, Hws, Hb, Hc, Hq, Hd; reflexivity.
Qed.

Lemma run_atom_tail (s lex r : string) (stk : list frame) :
  string_forallb (fun c => negb (is_delim c)) s = true ->
  run (mk_state (Atom lex) stk) (s ++ r) = run (mk_state (Atom (lex ++ s)) stk) r.
Proof.
  revert lex. induction s as [|c s IH]; simpl; intros lex H.
  - rewrite string_app_nil_r. reflexivity.
  - apply andb_true_iff in H. destruct H as [Hc Hs]. apply negb_true_iff in Hc.
    unfold step. simpl. rewrite Hc. rewrite (IH _ Hs), string_app_assoc. reflexivity.
Qed.

Lemma run_lexeme (m : mode) (stk : list frame) (l r : string) :
  m = Value \/ m = ArrFirst ->
  atom_text l = true ->
  run (mk_state m stk) (l ++ r) = run (mk_state (Atom l) stk) r.
Proof.
  intros Hm. destruct l as [|c s]; simpl; [discriminate|].
  rewrite andb_true_iff. intros [Hc Hs].
  rewrite (step_start m stk c Hm Hc). apply (run_atom_tail s (String c "") r stk Hs).
Qed.

Lemma atom_then_comma (l : string) (v : json) (acc : list json) (stk : list frame)
    (r : string) :
  classify l = Some v ->
  run (mk_state (Atom l) (FArr acc :: stk)) (String "," (String " " r)) =
  run (mk_state Value (FArr (acc ++ [v])%list :: stk)) r.
Proof. intros Hc. simpl. unfold step. simpl. rewrite Hc. reflexivity. Qed.

Lemma atom_then_close (l : string) (v : json) (acc : list json) (stk : list frame)
    (r : string) :
  classify l = Some v ->
  run (mk_state (Atom l) (FArr acc :: stk)) (String "]" r) =
  match push_value (JArr (acc ++ [v])%list) stk with
  | Some st => run st r
  | None => None
  end.
Proof. intros Hc. simpl. unfold step. simpl. rewrite Hc. reflexivity. Qed.

Lemma run_elements (ls : list string) (vs : list json) :
  Forall2 lexeme_of ls vs -> ls <> [] ->
  forall (m : mode) (acc : list json) (stk : list frame) (r : string),
    m = Value \/ m = ArrFirst ->
    run (mk_state m (FArr acc :: stk)) (join ", " ls ++ String "]" r) =
    match push_value (JArr (acc ++ vs)%list) stk with
    | Some st => run st r
    | None => None
    end.
Proof.
  induction 1 as [|l v ls vs [Ht Hc] Hrest IH]; [congruence|]. intros _ m acc stk r Hm.
  destruct ls as [|l2 ls].
  - inversion Hrest; subst.
    change (join ", " [l]) with l.
    rewrite (run_lexeme m _ l _ Hm Ht). apply atom_then_close, Hc.
  - change (join ", " (l :: l2 :: ls)) with (l ++ ", " ++ join ", " (l2 :: ls)).
    rewrite !string_app_assoc.
    rewrite (run_lexeme m _ l _ Hm Ht).
    etransitivity;
      [exact (atom_then_comma l v acc stk (join ", " (l2 :: ls) ++ String "]" r) Hc)|].
    rewrite (IH ltac:(discriminate) Value (acc ++ [v])%list stk r (or_introl eq_refl)).
    rewrite <- List.app_assoc. reflexivity.
Qed.

(** An array of numbers and literals, as [dumps] writes it. *)
Lemma run_array (ls : list string) (vs : list json) (stk : list frame) (r : string) :
  Forall2 lexeme_of ls vs ->
  run (mk_state Value stk) (("[" ++ join ", " ls ++ "]") ++ r) =
  match push_value (JArr vs) stk with
  | Some st => run st r
  | None => None
  end.
Proof.
  intros H. destruct ls as [|l ls].
  - inversion H; subst. reflexivity.
  - rewrite !string_app_assoc.
    change (run (mk_state ArrFirst (FArr [] :: stk)) (join ", " (l :: ls) ++ String "]" r)
            = match push_value (JArr vs) stk with
              | Some st => run st r
              | None => None
              end).
    apply (run_elements (l :: ls) vs H ltac:(discriminate) ArrFirst [] stk r).
    right; reflexivity.
Qed.

End DumpsFacts.

(** ** The text of numbers *)

Module NumberFacts.

Import Json JsonFacts DumpsFacts.

Lemma skip_digits_chars (s : string) :
  string_forallb number_char (skip_digits s) = true ->
  string_forallb number_char s = true.
Proof.
  induction s as [|c s IH]; simpl; [trivial|].
  destruct (is_digit c) eqn:Hd; [|trivial].
  intros H. rewrite (digit_number_char c Hd). apply IH, H.
Qed.

Lemma digits1_chars (s r : string) :
  digits1 s = Some r ->
  string_forallb number_char r = true -> string_forallb number_char s = true.
Proof.
  destruct s as [|c s]; simpl; [discriminate|].
  destruct (is_digit c) eqn:Hd; [|discriminate].
  intros [= <-] H. rewrite (digit_number_char c Hd). apply skip_digits_chars, H.
Qed.

Lemma number_exp_chars (s : string) :
  number_exp s = true -> string_forallb number_char s = true.
Proof.
  destruct s as [|c s]; simpl; [trivial|].
  destruct (Ascii.eqb c "e" || Ascii.eqb c "E") eqn:He; [|discriminate].
  assert (Hc : number_char c = true).
  { unfold number_char. apply orb_true_iff in He. destruct He as [-> | ->];
      rewrite ?orb_true_r; reflexivity. }
  rewrite Hc. simpl.
  destruct s as [|d r]; simpl; [discriminate|].
  destruct (Ascii.eqb d "+" || Ascii.eqb d "-") eqn:Hs.
  - assert (Hd : number_char d = true).
    { unfold number_char. apply orb_true_iff in Hs. destruct Hs as [-> | ->];
        rewrite ?orb_true_r; reflexivity. }
    rewrite Hd. simpl.
    destruct (digits1 r) as [[|]|] eqn:Hr; try discriminate.
    intros _. apply (digits1_chars r "" Hr). reflexivity.
  - destruct (digits1 (String d r)) as [[|]|] eqn:Hr; try discriminate.
    intros _. apply (digits1_chars (String d r) "" Hr). reflexivity.
Qed.

Lemma number_frac_chars (s : string) :
  number_frac s = true -> string_forallb number_char s = true.
Proof.
  destruct s as [|c s]; [trivial|]. unfold number_frac.
  destruct (Ascii.eqb c ".") eqn:Hc; [|apply number_exp_chars].
  destruct (digits1 s) as [r|] eqn:Hr; [|discriminate].
  intros H. simpl. unfold number_char at 1. rewrite Hc, ?orb_true_r. simpl.
  apply (digits1_chars s r Hr), number_exp_chars, H.
Qed.

Lemma number_int_chars (s : string) :
  number_int s = true -> string_forallb number_char s = true.
Proof.
  destruct s as [|c s]; [discriminate|]. unfold number_int.
  destruct (Ascii.eqb c "0") eqn:H0.
  - apply Ascii.eqb_eq in H0. subst c. intros H. simpl. apply number_frac_chars, H.
  - destruct (is_digit c) eqn:Hd; [|discriminate].
    intros H. simpl. rewrite (digit_number_char c Hd).
    apply skip_digits_chars, number_frac_chars, H.
Qed.

Lemma json_number_chars (s : string) :
  is_json_number s = true -> string_forallb number_char s = true.
Proof.
  destruct s as [|c s]; [discriminate|]. unfold is_json_number.
  destruct (Ascii.eqb c "-") eqn:Hm; [|apply number_int_chars].
  intros H. simpl. unfold number_char at 1. rewrite Hm, ?orb_true_r. simpl.
  apply number_int_chars, H.
Qed.

Lemma number_char_facts (c : ascii) :
  number_char c = true ->
  atom_start c = true /\ is_delim c = false /\
  Ascii.eqb c "t" = false /\ Ascii.eqb c "f" = false /\ Ascii.eqb c "n" = false.
Proof.
  intros H. pose proof (number_char_atom c) as Ha. rewrite H in Ha. simpl in Ha.
  rewrite !andb_true_iff, !negb_true_iff in Ha. tauto.
Qed.

(** A JSON number is read as itself. *)
Lemma number_lexeme (l : string) :
  is_json_number l = true -> lexeme_of l (JNum l).
Proof.
  intros Hn. pose proof (json_number_chars l Hn) as Hc.
  destruct l as [|c s]; [discriminate|]. simpl in Hc.
  apply andb_true_iff in Hc. destruct Hc as [Hc Hs].
  destruct (number_char_facts c Hc) as (Hstart & _ & Ht & Hf & Hnull).
  split.
  - simpl. rewrite Hstart. simpl.
    eapply string_forallb_impl; [|exact Hs].
    intros d Hd. destruct (number_char_facts d Hd) as (_ & -> & _). reflexivity.
  - unfold classify. simpl String.eqb. rewrite Ht, Hf, Hnull, Hn. reflexivity.
Qed.

(** *** Integers *)

Lemma uint_digits (u : Decimal.uint) :
  string_forallb is_digit (NilEmpty.string_of_uint u) = true.
Proof. induction u; simpl; trivial. Qed.

Lemma skip_all_digits (s : string) :
  string_forallb is_digit s = true -> skip_digits s = "".
Proof.
  induction s as [|c s IH]; simpl; [reflexivity|].
  rewrite andb_true_iff. intros [-> Hs]. apply IH, Hs.
Qed.

Lemma to_uint_normal (p : positive) : Decimal.unorm (Pos.to_uint p) = Pos.to_uint p.
Proof.
  rewrite <- (DecimalPos.Unsigned.to_of (Pos.to_uint p)).
  rewrite DecimalPos.Unsigned.of_to. reflexivity.
Qed.

Lemma normal_uint_number (u : Decimal.uint) :
  Decimal.unorm u = u -> number_int (NilEmpty.string_of_uint u) = true.
Proof.
  intros Hu.
  assert (Hskip : forall d, number_frac (skip_digits (NilEmpty.string_of_uint d)) = true).
  { intros d. rewrite (skip_all_digits _ (uint_digits d)). reflexivity. }
  destruct u; simpl; try apply Hskip.
  - discriminate.
  - rewrite DecimalFacts.unorm_D0 in Hu.
    destruct u; simpl; try reflexivity;
      exfalso; unfold Decimal.unorm in Hu; simpl in Hu;
      try discriminate.
    destruct (Decimal.nzhead u) eqn:E; try discriminate.
    inversion Hu; subst. eapply DecimalFacts.nzhead_nonzero, E.
Qed.

Lemma pos_repr (p : positive) :
  NilZero.string_of_uint (Pos.to_uint p) = NilEmpty.string_of_uint (Pos.to_uint p).
Proof.
  pose proof (DecimalPos.Unsigned.to_uint_nonnil p) as H.
  destruct (Pos.to_uint p); [congruence | reflexivity..].
Qed.

Lemma pos_repr_number (p : positive) :
  number_int (NilEmpty.string_of_uint (Pos.to_uint p)) = true.
Proof. apply normal_uint_number, to_uint_normal. Qed.

Lemma digit_not_minus (s : string) :
  number_int s = true ->
  match s with String c _ => Ascii.eqb c "-" = false | EmptyString => True end.
Proof.
  destruct s as [|c s]; [trivial|]. unfold number_int.
  destruct (Ascii.eqb_spec c "-") as [->|]; [discriminate | reflexivity].
Qed.

(** [str] of an integer is a JSON number. *)
Lemma int_repr_number (z : Z) : is_json_number (int_repr z) = true.
Proof.
  unfold int_repr. destruct z as [|p|p]; [reflexivity| |].
  - simpl. rewrite pos_repr. pose proof (pos_repr_number p) as H.
    pose proof (digit_not_minus _ H) as Hm.
    unfold is_json_number.
    destruct (NilEmpty.string_of_uint (Pos.to_uint p)); [discriminate|].
    rewrite Hm. exact H.
  - simpl. rewrite pos_repr. apply pos_repr_number.
Qed.

Lemma int_repr_chars (z : Z) : string_forallb int_char (int_repr z) = true.
Proof.
  assert (H : forall u, string_forallb int_char (NilEmpty.string_of_uint u) = true).
  { intros u. eapply string_forallb_impl; [apply digit_int_char | apply uint_digits]. }
  unfold int_repr. destruct z as [|p|p]; [reflexivity| |]; simpl; rewrite pos_repr; apply H.
Qed.

Lemma int_chars_not_float (s : string) :
  string_forallb int_char s = true -> is_float_lexeme s = false.
Proof.
  induction s as [|c s IH]; simpl; [reflexivity|].
  rewrite andb_true_iff. intros [Hc Hs].
  pose proof (int_char_plain c) as Hp. rewrite Hc in Hp.
  apply negb_true_iff in Hp. rewrite Hp. apply IH, Hs.
Qed.

(** [int] reads back what [str] wrote. *)
Lemma int_of_lexeme_repr (z : Z) : int_of_lexeme (int_repr z) = Some z.
Proof.
  unfold int_of_lexeme, int_repr. rewrite NilZero.isi.
  - simpl. rewrite DecimalZ.of_to. reflexivity.
  - destruct z; simpl; try discriminate.
    intros H. injection H as H. eapply DecimalPos.Unsigned.to_uint_nonnil, H.
  - destruct z; simpl; try discriminate.
    intros H. injection H as H. eapply DecimalPos.Unsigned.to_uint_nonnil, H.
Qed.

End NumberFacts.

(** ** [run] against [predict] *)

Module RefinementFacts.

Import Numpy Pandas Json Scoring NumpyFacts JsonFacts DumpsFacts NumberFacts ScoringFacts.

Section Facts.

Variable XGBClassifier : Type.
Variable predict_proba : XGBClassifier -> DataFrame -> result ndarray.
Variable float_repr : Q -> string.
Variable float_of_string : string -> option Q.
Variable DataFrame_str : DataFrame -> string.

Abbreviation run := (Scoring.run XGBClassifier predict_proba float_repr DataFrame_str).
Abbreviation predict := (Scoring.predict XGBClassifier predict_proba).
Abbreviation loaded clf := (mk_ModelWrapper XGBClassifier (Some clf)).

(** The text written for a float is a JSON number with a fraction or an
    exponent, and [float] reads the same float back from it. *)
Definition reads_back (x : Q) : Prop :=
  is_json_number (float_repr x) = true /\
  is_float_lexeme (float_repr x) = true /\
  float_of_string (float_repr x) = Some x.

Lemma max_row_keeps (P : Q -> Prop) (row : list Q) (p : Q) :
  Forall P row -> max_row row = Some p -> P p.
Proof.
  destruct row as [|x l]; simpl; [discriminate|]. intros H [= <-].
  rewrite List.Forall_forall in H.
  destruct (max_from_in l x) as [-> | Hin]; apply H; simpl; auto.
Qed.

Lemma confidence_keeps (P : Q -> Prop) (rws : list (list Q)) (ps : list Q) :
  Forall (Forall P) rws -> traverse max_row rws = Some ps -> Forall P ps.
Proof.
  intros H. revert ps. induction H as [|row rws Hrow _ IH]; simpl; intros ps Hps.
  - inversion Hps. constructor.
  - destruct (max_row row) as [p|] eqn:Hp; [|discriminate].
    destruct (traverse max_row rws) as [ps'|]; [|discriminate].
    inversion Hps; subst. constructor; [eapply max_row_keeps; eassumption | apply IH; reflexivity].
Qed.

Lemma int_lexemes (zs : list Z) :
  Forall2 lexeme_of (List.map int_repr zs) (List.map JNum (List.map int_repr zs)).
Proof.
  induction zs as [|z zs IH]; simpl; constructor; [|exact IH].
  apply number_lexeme, int_repr_number.
Qed.

Lemma float_lexemes (ps : list Q) :
  Forall reads_back ps ->
  Forall2 lexeme_of (List.map float_repr ps) (List.map JNum (List.map float_repr ps)).
Proof.
  induction 1 as [|p ps (Hn & _) _ IH]; simpl; constructor; [|exact IH].
  apply number_lexeme, Hn.
Qed.

Lemma decode_ints (zs : list Z) :
  traverse (decode float_of_string) (List.map JNum (List.map int_repr zs))
  = Some (List.map PyInt zs).
Proof.
  induction zs as [|z zs IH]; simpl; [reflexivity|].
  rewrite (int_chars_not_float _ (int_repr_chars z)), int_of_lexeme_repr. simpl.
  rewrite IH. reflexivity.
Qed.

Lemma decode_floats (ps : list Q) :
  Forall reads_back ps ->
  traverse (decode float_of_string) (List.map JNum (List.map float_repr ps))
  = Some (List.map PyFloat ps).
Proof.
  induction 1 as [|p ps (_ & Hf & Hr) _ IH]; simpl; [reflexivity|].
  rewrite Hf, Hr. simpl. rewrite IH. reflexivity.
Qed.

Definition array_text (ls : list string) : string := "[" ++ join ", " ls ++ "]".

Lemma dumps_text (zs : list Z) (ps : list Q) :
  dumps float_repr
    (PyDict [("class", PyList (List.map PyInt zs));
             ("confidence", PyList (List.map PyFloat ps))])
  = ("{" ++ quote "class" ++ ": ") ++ array_text (List.map int_repr zs)
    ++ (", " ++ quote "confidence" ++ ": ") ++ array_text (List.map float_repr ps)
    ++ "}".
Proof.
  cbn [dumps List.map fst snd join]. rewrite !List.map_map.
  cbn [dumps]. unfold array_text.
  change (List.map (fun x : Z => int_repr x) zs) with (List.map int_repr zs).
  change (List.map (fun x : Q => float_repr x) ps) with (List.map float_repr ps).
  rewrite !string_app_assoc. reflexivity.
Qed.

Lemma open_class :
  Json.run initial ("{" ++ quote "class" ++ ": ") = Some (mk_state Value [FObjV [] "class"]).
Proof. vm_compute. reflexivity. Qed.

Lemma open_confidence (v : json) :
  match push_value v [FObjV [] "class"] with
  | Some st => Json.run st (", " ++ quote "confidence" ++ ": ")
  | None => None
  end = Some (mk_state Value [FObjV [("class", v)] "confidence"]).
Proof. vm_compute. reflexivity. Qed.

Lemma close_document (v w : json) :
  match push_value w [FObjV [("class", v)] "confidence"] with
  | Some st => Json.run st "}"
  | None => None
  end = Some (mk_state (Done (JObj [("class", v); ("confidence", w)])) []).
Proof. vm_compute. reflexivity. Qed.

(** [json.loads] of what [json.dumps] wrote for the two lists. *)
Lemma loads_dumps (zs : list Z) (ps : list Q) :
  Forall reads_back ps ->
  loads_py float_of_string
    (dumps float_repr
       (PyDict [("class", PyList (List.map PyInt zs));
                ("confidence", PyList (List.map PyFloat ps))]))
  = Some (PyDict [("class", PyList (List.map PyInt zs));
                  ("confidence", PyList (List.map PyFloat ps))]).
Proof.
  intros Hps. unfold loads_py, loads. rewrite dumps_text.
  rewrite run_app, open_class.
  unfold array_text at 1. rewrite (run_array _ _ _ _ (int_lexemes zs)).
  destruct (push_value (JArr (List.map JNum (List.map int_repr zs))) [FObjV [] "class"])
    as [st1|] eqn:H1; [|discriminate H1].
  pose proof (open_confidence (JArr (List.map JNum (List.map int_repr zs)))) as H2.
  rewrite H1 in H2. rewrite run_app, H2.
  unfold array_text. rewrite (run_array _ _ _ _ (float_lexemes ps Hps)).
  rewrite close_document. unfold finish.
  cbn [st_mode st_stack decode traverse fst snd].
  rewrite decode_ints, decode_floats by exact Hps.
  reflexivity.
Qed.

(** C9: on a batch that the classifier scores, the text returned by
    [run] reads back as the two lists that are the columns of the frame
    returned by [predict]; [run] returns a string, [predict] a frame. *)
Theorem run_reads_back_as_predict (clf : XGBClassifier) (context : PythonModelContext)
    (data : DataFrame) (m : ndarray) :
  predict_proba clf data = Ok m ->
  well_shaped m -> (0 < ncols m)%nat ->
  Forall (Forall reads_back) (rows m) ->
  exists (text : string) (frame : DataFrame) (classes : list Z) (confidence : list Q),
    fst (run (Some clf) data) = Ok text /\
    fst (predict (loaded clf) context data) = Ok frame /\
    loads_py float_of_string text =
      Some (PyDict [("class", PyList (List.map PyInt classes));
                    ("confidence", PyList (List.map PyFloat confidence))]) /\
    df_columns frame =
      [("class", List.map CInt classes); ("confidence", List.map CFloat confidence)] /\
    df_rows frame = nrows m.
Proof.
  intros Hm Hws Hk Hrepr.
  destruct (outputs XGBClassifier predict_proba float_repr DataFrame_str
              clf context data m Hm Hws Hk)
    as (cs & ps & _ & Hps & Hlc & _ & Hpred & Hrun).
  exists (dumps float_repr (result_dict cs ps)), (result_frame cs ps), (tolist_int cs), ps.
  rewrite Hpred, Hrun. split; [reflexivity|]. split; [reflexivity|].
  split; [|split; [reflexivity | exact Hlc]].
  apply loads_dumps. eapply confidence_keeps; eassumption.
Qed.

End Facts.

End RefinementFacts.

(** ** The statements on the sample classifier *)

Module ScoringSamples.

Import Numpy Pandas Json Scoring Samples ScoringFacts RefinementFacts.

Abbreviation run := (Scoring.run bool sample_predict_proba sample_float_repr sample_DataFrame_str).
Abbreviation predict := (Scoring.predict bool sample_predict_proba).
Abbreviation loaded clf := (mk_ModelWrapper bool (Some clf)).

Lemma sample_matrix_shaped : well_shaped sample_matrix.
Proof. repeat constructor. Defined.


Lemma predict_frame_shape_witness :
  exists df,
    fst (predict (loaded true) sample_context sample_batch) = Ok df /\
    df_rows df = df_rows sample_batch /\
    column_names df = ["class"; "confidence"] /\
    Forall (fun col => List.length (snd col) = df_rows sample_batch) (df_columns df).
Proof.
  apply (predict_frame_shape bool sample_predict_proba sample_float_repr
           sample_DataFrame_str true sample_context sample_batch sample_matrix).
  - reflexivity.
  - exact sample_matrix_shaped.
  - simpl. lia.
  - reflexivity.
Defined.

(** C5 as stated fails: the classifier raises a [RuntimeError] and
    [run] returns a text instead of raising it. *)
Lemma run_swallows_RuntimeError :
  sample_predict_proba false sample_batch = Raise (RuntimeError "boom") /\
  fst (run (Some false) sample_batch) = Ok "Input <frame>. Exception was: boom" /\
  fst (run (Some false) sample_batch) <> Raise (RuntimeError "boom").
Proof.
  split; [reflexivity|]. split; [reflexivity|]. discriminate.
Qed.

Lemma exceptions_of_predict_proba_witness :
  fst (predict (loaded false) sample_context sample_batch) = Raise (RuntimeError "boom") /\
  (isinstance (RuntimeError "boom") "RuntimeError" = false ->
   run (Some false) sample_batch = (Raise (RuntimeError "boom"), [])) /\
  (isinstance (RuntimeError "boom") "RuntimeError" = true ->
   run (Some false) sample_batch =
     (Ok ("Input " ++ sample_DataFrame_str sample_batch ++ ". Exception was: "
          ++ str_exn (RuntimeError "boom")),
      ["[ERR] Exception happened: " ++ str_exn (RuntimeError "boom")])).
Proof.
  apply (exceptions_of_predict_proba bool sample_predict_proba sample_float_repr
           sample_DataFrame_str false sample_context sample_batch (RuntimeError "boom")).
  reflexivity.
Defined.

Lemma sample_reads_back :
  Forall (Forall (reads_back sample_float_repr Builtins.py_float)) (rows sample_matrix).
Proof. repeat constructor. Defined.

Lemma run_reads_back_as_predict_witness :
  exists (text : string) (frame : DataFrame) (classes : list Z) (confidence : list Q),
    fst (run (Some true) sample_batch) = Ok text /\
    fst (predict (loaded true) sample_context sample_batch) = Ok frame /\
    loads_py Builtins.py_float text =
      Some (PyDict [("class", PyList (List.map PyInt classes));
                    ("confidence", PyList (List.map PyFloat confidence))]) /\
    df_columns frame =
      [("class", List.map CInt classes); ("confidence", List.map CFloat confidence)] /\
    df_rows frame = nrows sample_matrix.
Proof.
  apply (run_reads_back_as_predict bool sample_predict_proba sample_float_repr
           Builtins.py_float sample_DataFrame_str true sample_context sample_batch
           sample_matrix).
  - reflexivity.
  - exact sample_matrix_shaped.
  - simpl. lia.
  - exact sample_reads_back.
Defined.

End ScoringSamples.

(** ** The cells that talk to the workspace *)

Module WorkspaceFacts.

Import Workspace.

Lemma fold_max_ge_init (l : list Z) (z : Z) : (z <= List.fold_left Z.max l z)%Z.
Proof.
  revert z. induction l as [|x l IH]; simpl; intros z; [lia|].
  specialize (IH (Z.max z x)). lia.
Qed.

Lemma fold_max_upper (l : list Z) (z x : Z) :
  In x l -> (x <= List.fold_left Z.max l z)%Z.
Proof.
  revert z. induction l as [|y l IH]; simpl; intros z Hin; [contradiction|].
  destruct Hin as [->|Hin]; [|apply IH, Hin].
  pose proof (fold_max_ge_init l (Z.max z x)). lia.
Qed.

Lemma fold_max_in (l : list Z) (z : Z) :
  List.fold_left Z.max l z = z \/ In (List.fold_left Z.max l z) l.
Proof.
  revert z. induction l as [|x l IH]; simpl; intros z; [left; reflexivity|].
  destruct (IH (Z.max z x)) as [H|H]; [|right; right; exact H].
  rewrite H. destruct (Z.max_spec z x) as [[_ ->]|[_ ->]]; [right; left|left]; reflexivity.
Qed.

(** [max] of a list that is not empty: an element, above the others. *)
Lemma py_max_spec (l : list Z) :
  l <> [] ->
  exists v, py_max l = Ok v /\ In v l /\ forall z, In z l -> (z <= v)%Z.
Proof.
  destruct l as [|z l]; [congruence|]. intros _. simpl.
  exists (List.fold_left Z.max l z). split; [reflexivity|]. split.
  - destruct (fold_max_in l z) as [->|H]; [left; reflexivity | right; exact H].
  - intros x [<-|Hin]; [apply fold_max_ge_init | apply fold_max_upper, Hin].
Qed.

Lemma ints_spec (l : list string) :
  Forall (fun s => exists z, Builtins.py_int s = Some z) l ->
  exists zs, ints l = Ok zs /\ Forall2 (fun s z => Builtins.py_int s = Some z) l zs.
Proof.
  induction 1 as [|s l [z Hz] _ (zs & Hzs & Hall)]; simpl.
  - exists []. split; [reflexivity | constructor].
  - rewrite Hz, Hzs. simpl. exists (z :: zs). split; [reflexivity|].
    constructor; assumption.
Qed.

Section Facts.

Variable W : Type.
Variable ml_client : MLClient W.

(** C4, as the code has it: a cluster that the lookup returns is reused
    and nothing is created; when the lookup raises an instance of
    [Exception] the cluster is configured and submitted; any other
    exception leaves the cell. *)
Theorem compute_reused_or_created (w w1 : W) (trace : list call)
    (outcome : result AmlCompute) :
  remote_compute_get ml_client "cpu-cluster" w = (outcome, w1) ->
  (forall cluster, outcome = Ok cluster ->
   provision_compute W ml_client (w, trace) =
     (Ok cluster,
      (w1, trace ++ [compute_get "cpu-cluster";
                     printed "You already have a cluster named cpu-cluster, we'll reuse it as is.";
                     printed ("AMLCompute with name " ++ name cluster
                              ++ " is created, the compute size is " ++ size cluster)])%list)) /\
  (forall e, outcome = Raise e -> isinstance e "Exception" = true ->
   let config :=
     mk_AmlCompute "cpu-cluster" "amlcompute" "STANDARD_DS3_V2" 0 4 180 "Dedicated" in
   let submitted :=
     (trace ++ [compute_get "cpu-cluster";
                printed "Creating a new cpu compute target...";
                compute_begin_create_or_update config])%list in
   provision_compute W ml_client (w, trace) =
     match remote_compute_begin_create_or_update ml_client config w1 with
     | (Ok created, w2) =>
         (Ok created,
          (w2, submitted ++ [printed ("AMLCompute with name " ++ name created
                                      ++ " is created, the compute size is "
                                      ++ size created)])%list)
     | (Raise e', w2) => (Raise e', (w2, submitted))
     end) /\
  (forall e, outcome = Raise e -> isinstance e "Exception" = false ->
   provision_compute W ml_client (w, trace) =
     (Raise e, (w1, trace ++ [compute_get "cpu-cluster"])%list)).
Proof.
  intros Hget.
  unfold provision_compute, bindM, try_except, remote, print, ret, cpu_compute_target.
  simpl. rewrite Hget. repeat split.
  - intros cluster ->. simpl. rewrite <- !List.app_assoc. reflexivity.
  - intros e -> He. simpl. rewrite He. simpl.
    destruct (remote_compute_begin_create_or_update ml_client _ w1) as [[created|e'] w2];
      simpl; rewrite <- !List.app_assoc; reflexivity.
  - intros e -> He. simpl. rewrite He. reflexivity.
Qed.


End Facts.

End WorkspaceFacts.

(** ** The cells on the sample workspaces *)

Module WorkspaceSamples.

Import Workspace Samples WorkspaceFacts.

(** C4 as stated fails: the lookup raises [KeyboardInterrupt], which is
    no [Exception]; it leaves the cell and nothing is submitted. *)
Lemma interrupted_lookup_creates_nothing :
  remote_compute_get interrupted_client "cpu-cluster" tt = (Raise KeyboardInterrupt, tt) /\
  provision_compute unit interrupted_client (tt, []) =
    (Raise KeyboardInterrupt, (tt, [compute_get "cpu-cluster"])) /\
  ~ In (compute_begin_create_or_update (new_cpu_cluster))
       (snd (snd (provision_compute unit interrupted_client (tt, [])))).
Proof.
  split; [reflexivity|]. split; [reflexivity|].
  simpl. intros [H|[]]. discriminate H.
Qed.

Definition not_found : exn :=
  mk_exn ("ResourceNotFoundError" :: "HttpResponseError" :: "AzureError" :: Exception_mro)
    "cpu-cluster".

(** On a workspace without cluster the lookup fails with an
    [Exception] and the cluster is created. *)
Lemma compute_reused_or_created_witness :
  remote_compute_get registry_client "cpu-cluster" ([], []) = (Raise not_found, ([], [])) /\
  isinstance not_found "Exception" = true /\
  provision_compute _ registry_client (([], []), []) =
    (Ok new_cpu_cluster,
     (([], [new_cpu_cluster]),
      [compute_get "cpu-cluster";
       printed "Creating a new cpu compute target...";
       compute_begin_create_or_update new_cpu_cluster;
       printed "AMLCompute with name cpu-cluster is created, the compute size is STANDARD_DS3_V2"])).
Proof.
  split; [reflexivity|]. split; [reflexivity|].
  exact (proj1 (proj2 (compute_reused_or_created _ registry_client ([], []) ([], []) []
                         (Raise not_found) eq_refl))
           not_found eq_refl eq_refl).
Defined.

Lemma sample_versions_are_integers :
  Forall (fun m => exists z, Builtins.py_int (version m) = Some z) sample_registry.
Proof. repeat constructor; eexists; reflexivity. Defined.


End WorkspaceSamples.

(** ** The command line of [main.py] *)

Module TrainingFacts.

Import Builtins Argparse Training.

Lemma is_argument_inv (p : ArgumentParser) (s : string) :
  is_argument p s = true ->
  String.eqb s "--" = false /\ parse_optional p s = Positional.
Proof.
  unfold is_argument. rewrite andb_true_iff, negb_true_iff. intros [H1 H2].
  split; [exact H1|]. destruct (parse_optional p s); congruence.
Qed.

(** An option followed by its argument stores the converted argument. *)
Lemma consume_store (p : ArgumentParser) (t v : string) (rest : list string)
    (st : parse_state) (a : Action) (x : value) :
  String.eqb t "--" = false ->
  parse_optional p t = Optional a None ->
  kind a = Store ->
  is_argument p v = true ->
  convert (type_ a) v = Some x ->
  consume p (t :: v :: rest) st =
  consume p rest
    (mk_parse_state (<[dest a := x]> (namespace st)) (dest a :: seen st) (extras st)).
Proof.
  intros Ht Hp Hk Hv Hc. simpl. rewrite Ht, Hp, Hk, Hv, Hc. reflexivity.
Qed.

(** The namespace when only the two paths are given. *)
Definition defaults_with (data registered_model_name : string) : gmap string value :=
  list_to_map
    [("data", VStr data);
     ("test_train_ratio", VFloat (25 # 100));
     ("n_estimators", VInt 100);
     ("learning_rate", VFloat (1 # 10));
     ("registered_model_name", VStr registered_model_name)].

Lemma no_ambiguity (argv : list string) :
  Forall (fun t => String.eqb t "--" = false /\
                   match parse_optional parser t with Ambiguous => False | _ => True end) argv ->
  existsb (fun t => match parse_optional parser t with Ambiguous => true | _ => false end)
    (before_separator argv) = false.
Proof.
  induction 1 as [|t argv [Ht Ha] _ IH]; simpl; [reflexivity|].
  rewrite Ht. simpl. rewrite IH. destruct (parse_optional parser t); try reflexivity.
  contradiction.
Qed.

Lemma argument_unambiguous (s : string) :
  is_argument parser s = true ->
  String.eqb s "--" = false /\
  match parse_optional parser s with Ambiguous => False | _ => True end.
Proof.
  intros H. destruct (is_argument_inv _ _ H) as [H1 H2]. rewrite H2. split; [exact H1 | exact I].
Qed.

(** The action that a word is taken for is one of the parser's. *)
Lemma parse_optional_in (p : ArgumentParser) (t : string) (a : Action)
    (e : option string) :
  parse_optional p t = Optional a e -> In a p.
Proof.
  unfold parse_optional. destruct t as [|c t']; [discriminate|].
  destruct (negb (Ascii.eqb c "-")); [discriminate|].
  destruct (find_exact p (String c t')) as [a0|] eqn:Hf.
  { intros [= <- _]. unfold find_exact in Hf. apply List.find_some in Hf. tauto. }
  destruct (Nat.eqb _ 1); [discriminate|].
  destruct (split_at "=" (String c t')) as [[o v]|];
    [destruct (find_exact p o) as [a0|] eqn:Ho|].
  - intros [= <- _]. unfold find_exact in Ho. apply List.find_some in Ho. tauto.
  - destruct (option_tuples p (String c t')) as [|[a1 e1] [|]] eqn:Ht;
      try (destruct (looks_negative_number _); [|destruct (contains_space _)]);
      try discriminate.
    intros [= <- _].
    assert (Hin : In (a1, e1) (option_tuples p (String c t'))) by (rewrite Ht; left; reflexivity).
    unfold option_tuples in Hin.
    destruct (is_long _); [destruct (split_at "=" _) as [[? ?]|]|];
      apply List.in_flat_map in Hin; destruct Hin as (a' & Ha' & Hin);
      apply List.in_map_iff in Hin; destruct Hin as (o' & Ho' & _);
      try (destruct (String.eqb o' _)); inversion Ho'; subst; exact Ha'.
  - destruct (option_tuples p (String c t')) as [|[a1 e1] [|]] eqn:Ht;
      try (destruct (looks_negative_number _); [|destruct (contains_space _)]);
      try discriminate.
    intros [= <- _].
    assert (Hin : In (a1, e1) (option_tuples p (String c t'))) by (rewrite Ht; left; reflexivity).
    unfold option_tuples in Hin.
    destruct (is_long _); [destruct (split_at "=" _) as [[? ?]|]|];
      apply List.in_flat_map in Hin; destruct Hin as (a' & Ha' & Hin);
      apply List.in_map_iff in Hin; destruct Hin as (o' & Ho' & _);
      try (destruct (String.eqb o' _)); inversion Ho'; subst; exact Ha'.
Qed.

(** The five actions declared by [main()]. *)
Definition declared : list Action :=
  [mk_Action ["--data"] "data" Store TStr false VNone;
   mk_Action ["--test_train_ratio"] "test_train_ratio" Store TFloat false (VFloat (25 # 100));
   mk_Action ["--n_estimators"] "n_estimators" Store TInt false (VInt 100);
   mk_Action ["--learning_rate"] "learning_rate" Store TFloat false (VFloat (1 # 10));
   mk_Action ["--registered_model_name"] "registered_model_name" Store TStr false VNone].

(** A command line made of declared options only, each with its
    argument, after [=] or as the next word. *)
Inductive options_only : list string -> Prop :=
| options_nil : options_only []
| options_explicit (t : string) (a : Action) (v : string) (rest : list string) :
    parse_optional parser t = Optional a (Some v) -> In a declared ->
    options_only rest -> options_only (t :: rest)
| options_next (t : string) (a : Action) (v : string) (rest : list string) :
    parse_optional parser t = Optional a None -> In a declared ->
    is_argument parser v = true ->
    options_only rest -> options_only (t :: v :: rest).

Lemma store_is_declared (a : Action) : In a parser -> kind a = Store -> In a declared.
Proof.
  intros [<-|Hin] Hk; [discriminate Hk | exact Hin].
Qed.

Lemma consume_extras (argv : list string) :
  forall st st', consume parser argv st = Ok st' ->
  exists more, extras st' = (extras st ++ more)%list /\ (more = [] -> options_only argv).
Proof.
  remember (List.length argv) as n eqn:Hn. revert argv Hn.
  induction n as [n IH] using (well_founded_induction PeanoNat.Nat.lt_wf_0).
  intros argv Hn st st' H.
  assert (IH' : forall rest, (List.length rest < List.length argv)%nat ->
            forall st0 st1, consume parser rest st0 = Ok st1 ->
            exists more, extras st1 = (extras st0 ++ more)%list /\
                         (more = [] -> options_only rest)).
  { intros rest Hlt. apply (IH (List.length rest)); [lia | reflexivity]. }
  clear IH Hn. rename IH' into IH.
  destruct argv as [|t rest].
  - inversion H; subst. exists []. rewrite List.app_nil_r. split; [reflexivity | constructor].
  - simpl in H. destruct (String.eqb t "--").
    { inversion H; subst. simpl. exists (t :: rest). split; [reflexivity | discriminate]. }
    assert (Hskip : forall st0, consume parser rest st0 = Ok st' ->
              extras st0 = (extras st ++ [t])%list ->
              exists more, extras st' = (extras st ++ more)%list /\
                           (more = [] -> options_only (t :: rest))).
    { intros st0 H0 He. destruct (IH rest ltac:(simpl; lia) st0 st' H0) as (more & Hm & _).
      exists (t :: more). rewrite Hm, He, <- List.app_assoc. split; [reflexivity | discriminate]. }
    destruct (parse_optional parser t) as [| a [v|] | |] eqn:Hp;
      try (eapply Hskip; [exact H | reflexivity]); try discriminate.
    + pose proof (parse_optional_in _ _ _ _ Hp) as Hin.
      destruct (kind a) eqn:Hk; [|discriminate].
      destruct (convert (type_ a) v); [|discriminate].
      destruct (IH rest ltac:(simpl; lia) _ st' H) as (more & Hm & Hoo).
      exists more. split; [exact Hm|]. intros E.
      eapply options_explicit; eauto using store_is_declared.
    + pose proof (parse_optional_in _ _ _ _ Hp) as Hin.
      destruct (kind a) eqn:Hk; [|discriminate].
      destruct rest as [|v rest']; [discriminate|].
      destruct (is_argument parser v) eqn:Hv; [|discriminate].
      destruct (convert (type_ a) v); [|discriminate].
      destruct (IH rest' ltac:(simpl; lia) _ st' H) as (more & Hm & Hoo).
      exists more. split; [exact Hm|]. intros E.
      eapply options_next; eauto using store_is_declared.
Qed.

(** A command line that [main.py] accepts uses declared options only. *)
Lemma accepted_options_only (argv : list string) (args : gmap string value) :
  main_args argv = Ok args -> options_only argv.
Proof.
  unfold main_args, parse_args. destruct (existsb _ (before_separator argv)); [discriminate|].
  destruct (consume parser argv _) as [st'|] eqn:Hc; [|discriminate].
  cbn [Py.bind].
  match goal with |- context [if ?b then _ else _] => destruct b end; [discriminate|].
  destruct (extras st') eqn:He; [|discriminate]. intros _.
  destruct (consume_extras argv _ _ Hc) as (more & Hm & Hoo).
  apply Hoo. rewrite He in Hm. simpl in Hm. symmetry. exact Hm.
Qed.

(** C6: the script declares exactly the five options; the three
    hyperparameters are optional, with the defaults 0.25 (float), 100
    (int) and 0.1 (float); a command line that gives only [--data] and
    [--registered_model_name] is accepted and leaves the defaults. *)
Theorem main_accepts_paths_alone (data registered_model_name : string) :
  is_argument parser data = true ->
  is_argument parser registered_model_name = true ->
  declared_options parser =
    ["--data"; "--test_train_ratio"; "--n_estimators"; "--learning_rate";
     "--registered_model_name"] /\
  (forall argv args, main_args argv = Ok args -> options_only argv) /\
  find_exact parser "--test_train_ratio" =
    Some (mk_Action ["--test_train_ratio"] "test_train_ratio" Store TFloat false
            (VFloat (25 # 100))) /\
  find_exact parser "--n_estimators" =
    Some (mk_Action ["--n_estimators"] "n_estimators" Store TInt false (VInt 100)) /\
  find_exact parser "--learning_rate" =
    Some (mk_Action ["--learning_rate"] "learning_rate" Store TFloat false
            (VFloat (1 # 10))) /\
  main_args ["--data"; data; "--registered_model_name"; registered_model_name]
    = Ok (defaults_with data registered_model_name) /\
  main_args ["--registered_model_name"; registered_model_name; "--data"; data]
    = Ok (defaults_with data registered_model_name) /\
  main_args ["--data=" ++ data; "--registered_model_name=" ++ registered_model_name]
    = Ok (defaults_with data registered_model_name).
Proof.
  intros Hd Hn. split; [reflexivity|]. split; [exact accepted_options_only|].
  split; [reflexivity|]. split; [reflexivity|]. split; [reflexivity|].
  assert (Heq : main_args ["--data=" ++ data;
                           "--registered_model_name=" ++ registered_model_name]
                = Ok (defaults_with data registered_model_name))
    by (vm_compute; reflexivity).
  pose proof (argument_unambiguous _ Hd) as Hd'.
  pose proof (argument_unambiguous _ Hn) as Hn'.
  split; [|split; [|exact Heq]]; clear Heq.
  - unfold main_args, parse_args. rewrite no_ambiguity.
    2:{ repeat constructor; try exact (proj1 Hd'); try exact (proj2 Hd');
        try exact (proj1 Hn'); try exact (proj2 Hn'). }
    rewrite (consume_store parser "--data" data _ _
               (mk_Action ["--data"] "data" Store TStr false VNone) (VStr data)
               eq_refl eq_refl eq_refl Hd eq_refl).
    rewrite (consume_store parser "--registered_model_name" registered_model_name _ _
               (mk_Action ["--registered_model_name"] "registered_model_name" Store TStr
                  false VNone) (VStr registered_model_name)
               eq_refl eq_refl eq_refl Hn eq_refl).
    vm_compute. reflexivity.
  - unfold main_args, parse_args. rewrite no_ambiguity.
    2:{ repeat constructor; try exact (proj1 Hd'); try exact (proj2 Hd');
        try exact (proj1 Hn'); try exact (proj2 Hn'). }
    rewrite (consume_store parser "--registered_model_name" registered_model_name _ _
               (mk_Action ["--registered_model_name"] "registered_model_name" Store TStr
                  false VNone) (VStr registered_model_name)
               eq_refl eq_refl eq_refl Hn eq_refl).
    rewrite (consume_store parser "--data" data _ _
               (mk_Action ["--data"] "data" Store TStr false VNone) (VStr data)
               eq_refl eq_refl eq_refl Hd eq_refl).
    vm_compute. reflexivity.
Qed.

Lemma main_accepts_paths_alone_witness :
  main_args ["--data"; "/mnt/data/credit.xls"; "--registered_model_name";
             "credit_defaults_model"]
    = Ok (defaults_with "/mnt/data/credit.xls" "credit_defaults_model").
Proof.
  exact (proj1 (proj2 (proj2 (proj2 (proj2 (proj2
           (main_accepts_paths_alone "/mnt/data/credit.xls" "credit_defaults_model"
              eq_refl eq_refl))))))).
Defined.

End TrainingFacts.

(** ** The command line of the job *)

Module JobFacts.

Import Argparse Training Job TrainingFacts.

Fixpoint no_space (s : string) : bool :=
  match s with
  | EmptyString => true
  | String c s' => negb (Ascii.eqb c " ") && no_space s'
  end.

Lemma words_from_word (p cur r : string) :
  no_space p = true -> words_from cur (p ++ r) = words_from (cur ++ p) r.
Proof.
  revert cur. induction p as [|c p IH]; intros cur H.
  - rewrite DumpsFacts.string_app_nil_r. reflexivity.
  - simpl in H. apply andb_true_iff in H. destruct H as [Hc Hp].
    apply negb_true_iff in Hc.
    change (words_from cur (String c (p ++ r)) = words_from (cur ++ String c p) r).
    simpl. rewrite Hc, (IH _ Hp), DumpsFacts.string_app_assoc. reflexivity.
Qed.

Definition data_input : Input :=
  mk_Input "uri_file"
    "https://archive.ics.uci.edu/ml/machine-learning-databases/00350/default%20of%20credit%20card%20clients.xls".

(** The line that runs on the compute node. *)
Lemma job_line (resolve : Input -> string) :
  expand resolve job None (command job) =
  Some ("python main.py --data " ++ resolve data_input
        ++ " --test_train_ratio 0.2 --learning_rate 0.25 --registered_model_name credit_defaults_model").
Proof. reflexivity. Qed.

Lemma job_words (p : string) :
  no_space p = true -> p <> "" ->
  words ("python main.py --data " ++ p
         ++ " --test_train_ratio 0.2 --learning_rate 0.25 --registered_model_name credit_defaults_model")
  = ["python"; "main.py"; "--data"; p; "--test_train_ratio"; "0.2"; "--learning_rate";
     "0.25"; "--registered_model_name"; "credit_defaults_model"].
Proof.
  intros Hp Hne. unfold words.
  change (words_from "" ("python main.py --data " ++ p ++ ?r))
    with ("python" :: "main.py" :: "--data" :: words_from "" (p ++ r)).
  rewrite (words_from_word p "" _ Hp).
  change ("" ++ p) with p.
  destruct p as [|c p]; [congruence|]. reflexivity.
Qed.

(** C10: the job gives [--data], [--test_train_ratio],
    [--learning_rate] and [--registered_model_name] and no word that is
    taken for [--n_estimators]; the script runs with [n_estimators] at
    its default of 100. *)
Theorem job_leaves_n_estimators_default (resolve : Input -> string) :
  resolve data_input <> "" ->
  no_space (resolve data_input) = true ->
  is_argument parser (resolve data_input) = true ->
  exists argv args,
    script_argv resolve job = Some argv /\
    argv = ["--data"; resolve data_input; "--test_train_ratio"; "0.2";
            "--learning_rate"; "0.25"; "--registered_model_name"; "credit_defaults_model"] /\
    Forall (fun word => forall e,
              parse_optional parser word
              <> Optional (mk_Action ["--n_estimators"] "n_estimators" Store TInt false
                             (VInt 100)) e) argv /\
    main_args argv = Ok args /\
    args !! "n_estimators" = Some (VInt 100) /\
    args !! "test_train_ratio" = Some (VFloat (2 # 10)) /\
    args !! "learning_rate" = Some (VFloat (25 # 100)).
Proof.
  intros Hne Hsp Harg.
  destruct (is_argument_inv _ _ Harg) as [Hsep Hpos].
  eexists _, _. split.
  { unfold script_argv. rewrite job_line, (job_words _ Hsp Hne). reflexivity. }
  split; [reflexivity|]. split.
  { repeat constructor; try (intros e; vm_compute; discriminate).
    intros e. rewrite Hpos. discriminate. }
  split.
  { unfold main_args, parse_args. rewrite no_ambiguity.
    2:{ repeat constructor. - exact Hsep. - rewrite Hpos. exact I. }
    rewrite (consume_store parser "--data" (resolve data_input) _ _
               (mk_Action ["--data"] "data" Store TStr false VNone)
               (VStr (resolve data_input)) eq_refl eq_refl eq_refl Harg eq_refl).
    vm_compute. reflexivity. }
  split; [|split]; vm_compute; reflexivity.
Qed.

Lemma job_leaves_n_estimators_default_witness :
  exists argv args,
    script_argv (fun _ => "/mnt/azureml/input/credit.xls") job = Some argv /\
    main_args argv = Ok args /\
    args !! "n_estimators" = Some (VInt 100).
Proof.
  destruct (job_leaves_n_estimators_default (fun _ => "/mnt/azureml/input/credit.xls")
              ltac:(discriminate) eq_refl eq_refl)
    as (argv & args & H1 & _ & _ & H2 & H3 & _).
  exists argv, args. repeat split; assumption.
Defined.

End JobFacts.

(** ** More on the scoring script and the wrapper *)

Module ScoringMore.

Import Numpy Pandas Json Scoring NumpyFacts ScoringFacts.

Fixpoint row_sum (row : list Q) : Q :=
  match row with
  | [] => 0
  | x :: row' => x + row_sum row'
  end.

Lemma row_sum_le (row : list Q) (p : Q) :
  (forall x, In x row -> (x <= p)%Q) ->
  (row_sum row <= inject_Z (Z.of_nat (List.length row)) * p)%Q.
Proof.
  induction row as [|x row IH]; intros H.
  - simpl. rewrite Qmult_0_l. apply Qle_refl.
  - cbn [row_sum List.length].
    rewrite Nat2Z.inj_succ. unfold Z.succ. rewrite inject_Z_plus.
    rewrite Qmult_plus_distr_l, Qmult_1_l, Qplus_comm.
    apply Qplus_le_compat.
    + apply IH. intros y Hy. apply H. right. exact Hy.
    + apply H. left. reflexivity.
Qed.

Section Facts.

Variable XGBClassifier : Type.
Variable new_classifier : XGBClassifier.
Variable load_model : XGBClassifier -> string -> result XGBClassifier.
Variable predict_proba : XGBClassifier -> DataFrame -> result ndarray.
Variable float_repr : Q -> string.
Variable DataFrame_str : DataFrame -> string.

Abbreviation init := (Scoring.init XGBClassifier).
Abbreviation run := (Scoring.run XGBClassifier predict_proba float_repr DataFrame_str).
Abbreviation predict := (Scoring.predict XGBClassifier predict_proba).
Abbreviation load_context := (Scoring.load_context XGBClassifier new_classifier load_model).
Abbreviation loaded clf := (mk_ModelWrapper XGBClassifier (Some clf)).
Abbreviation unloaded := (mk_ModelWrapper XGBClassifier None).

(** X1: a batch without row is scored as an empty frame with the two
    columns by [predict], and as the two empty lists by [run]. *)
Theorem empty_batch_outputs (clf : XGBClassifier) (context : PythonModelContext)
    (data : DataFrame) (k : nat) :
  predict_proba clf data = Ok (mk_ndarray k []) -> (0 < k)%nat ->
  fst (predict (loaded clf) context data)
    = Ok (mk_DataFrame [("class", []); ("confidence", [])] 0) /\
  run (Some clf) data
    = (Ok ("{" ++ quote "class" ++ ": [], " ++ quote "confidence" ++ ": []}"), []).
Proof.
  intros Hm Hk. unfold Scoring.predict, Scoring.run, run_body, argmax_axis1, max_axis1.
  simpl. rewrite Hm. simpl. destruct k as [|k]; [lia|]. split; reflexivity.
Qed.

(** X3: the class of a row is the index of one of its columns; when
    the probabilities of a row add up to one, its confidence is at
    least one over the number of classes. *)
Theorem class_in_range_confidence_above_chance (clf : XGBClassifier)
    (context : PythonModelContext) (data : DataFrame) (m : ndarray) :
  predict_proba clf data = Ok m ->
  well_shaped m -> (0 < ncols m)%nat ->
  exists classes confidence,
    fst (predict (loaded clf) context data) = Ok (result_frame classes confidence) /\
    Forall (fun c => (c < ncols m)%nat) classes /\
    forall i row p,
      nth_error (rows m) i = Some row -> nth_error confidence i = Some p ->
      (row_sum row == 1)%Q ->
      (1 <= inject_Z (Z.of_nat (ncols m)) * p)%Q.
Proof.
  intros Hm Hws Hk.
  destruct (outputs XGBClassifier predict_proba float_repr DataFrame_str
              clf context data m Hm Hws Hk)
    as (cs & ps & Hcs & Hps & _ & _ & Hpred & _).
  exists cs, ps. rewrite Hpred. split; [reflexivity|].
  unfold well_shaped in Hws. rewrite List.Forall_forall in Hws.
  assert (Hrow : forall row, In row (rows m) ->
            exists c p, argmax_row row = Some c /\ max_row row = Some p /\
                        (c < ncols m)%nat /\ (forall x, In x row -> (x <= p)%Q)).
  { intros row Hin. pose proof (Hws _ Hin) as Hlen. simpl in Hlen.
    assert (Hne : row <> []) by (intros ->; simpl in Hlen; lia).
    destruct (row_reductions row Hne) as (c & p & Hc & Hp & Hnth & Hup & _).
    exists c, p. repeat split; try assumption.
    rewrite <- Hlen. apply nth_error_Some. rewrite Hnth. discriminate. }
  split.
  - clear Hps Hpred. revert cs Hcs. induction (rows m) as [|row rws IH]; simpl; intros cs Hcs.
    + inversion Hcs. constructor.
    + destruct (argmax_row row) as [c|] eqn:Hc; [|discriminate].
      destruct (traverse argmax_row rws) as [cs'|]; [|discriminate].
      inversion Hcs; subst. constructor.
      * destruct (Hrow row (or_introl eq_refl)) as (c' & p' & Hc' & _ & Hlt & _).
        rewrite Hc in Hc'. inversion Hc'; subst. exact Hlt.
      * apply IH; [intros r Hr; apply Hws; right; exact Hr
                  |intros r Hr; apply Hrow; right; exact Hr | reflexivity].
  - intros i row p Hi Hp Hsum.
    destruct (traverse_nth _ _ _ Hps i row Hi) as (p' & Hp' & Hmax).
    rewrite Hp in Hp'. inversion Hp'; subst p'.
    destruct (Hrow row (nth_error_In _ _ Hi)) as (c & p'' & _ & Hmax' & _ & Hup).
    rewrite Hmax in Hmax'. inversion Hmax'; subst p''.
    rewrite <- Hsum. rewrite <- (Hws row (nth_error_In _ _ Hi)).
    apply row_sum_le, Hup.
Qed.

(** X4: score.py as it is written serves nothing: [init] fails on
    the name [XGBClassifier] and leaves [MODEL] at [None]; every [run]
    after it raises [AttributeError], which its handler does not
    catch.  [predict] on an instance that was never loaded raises
    [AttributeError] too. *)
Theorem unloaded_entry_points (getenv : string -> option string)
    (context : PythonModelContext) (data : DataFrame) :
  let (started, MODEL) := init getenv None in
  (exists e, started = Raise e /\ isinstance e "NameError" = true) /\
  MODEL = None /\
  (exists e, run MODEL data = (Raise e, []) /\
             isinstance e "AttributeError" = true /\
             isinstance e "RuntimeError" = false) /\
  (exists e, predict unloaded context data = (Raise e, unloaded) /\
             isinstance e "AttributeError" = true).
Proof.
  simpl. repeat split; eexists; repeat split.
Qed.

(** X5: without an artifact named [model], [load_context] raises
    [KeyError] and the instance is as before. *)
Theorem load_context_missing_artifact (self : ModelWrapper XGBClassifier)
    (context : PythonModelContext) :
  artifacts context !! "model" = None ->
  exists e,
    load_context self context = (Raise e, self) /\ isinstance e "KeyError" = true.
Proof.
  intros H. unfold Scoring.load_context. rewrite H. eexists. split; reflexivity.
Qed.



Lemma not_a_document (rest : string) : loads ("Input " ++ rest) = None.
Proof. reflexivity. Qed.

(** X8: the text that [run] returns for a [RuntimeError] is no JSON
    text: [json.loads] rejects it. *)
Theorem run_error_text_is_not_json (clf : XGBClassifier) (data : DataFrame) (e : exn) :
  predict_proba clf data = Raise e ->
  isinstance e "RuntimeError" = true ->
  exists text, fst (run (Some clf) data) = Ok text /\ loads text = None.
Proof.
  intros He Hr. unfold Scoring.run, run_body. rewrite He. simpl. rewrite Hr.
  eexists. split; [reflexivity|]. apply not_a_document.
Qed.

End Facts.

End ScoringMore.

(** ** More statements on sample classifiers *)

Module ScoringMoreSamples.

Import Numpy Pandas Json Scoring Samples MoreSamples ScoringFacts ScoringMore.

Abbreviation run := (Scoring.run nat fitted_predict_proba sample_float_repr sample_DataFrame_str).
Abbreviation predict := (Scoring.predict nat fitted_predict_proba).
Abbreviation load_context := (Scoring.load_context nat 0%nat sample_load_model).
Abbreviation loaded clf := (mk_ModelWrapper nat (Some clf)).

Definition halves : ndarray := mk_ndarray 2 [[1 # 2; 1 # 2]; [1 # 2; 1 # 2]]%Q.

Lemma halves_shaped : well_shaped halves.
Proof. repeat constructor. Defined.

Lemma empty_batch_outputs_witness :
  fst (predict (loaded 2%nat) sample_context empty_batch)
    = Ok (mk_DataFrame [("class", []); ("confidence", [])] 0) /\
  run (Some 2%nat) empty_batch
    = (Ok ("{" ++ quote "class" ++ ": [], " ++ quote "confidence" ++ ": []}"), []).
Proof.
  apply (empty_batch_outputs nat fitted_predict_proba sample_float_repr
           sample_DataFrame_str 2%nat sample_context empty_batch 2).
  - reflexivity.
  - lia.
Defined.

Lemma no_column_witness :
  fst (Scoring.predict nat uniform_predict_proba (loaded 0%nat) sample_context sample_batch)
    = Raise (ValueError "attempt to get argmax of an empty sequence") /\
  fst (Scoring.run nat uniform_predict_proba sample_float_repr sample_DataFrame_str
         (Some 0%nat) sample_batch)
    = Raise (ValueError "attempt to get argmax of an empty sequence").
Proof.
  apply (no_column nat uniform_predict_proba sample_float_repr sample_DataFrame_str
           0%nat sample_context sample_batch (mk_ndarray 0 [[]; []])).
  - reflexivity.
  - reflexivity.
Defined.

Lemma class_in_range_confidence_above_chance_witness :
  exists classes confidence,
    fst (predict (loaded 2%nat) sample_context sample_batch)
      = Ok (result_frame classes confidence) /\
    Forall (fun c => (c < ncols halves)%nat) classes /\
    forall i row p,
      nth_error (rows halves) i = Some row -> nth_error confidence i = Some p ->
      (ScoringMore.row_sum row == 1)%Q ->
      (1 <= inject_Z (Z.of_nat (ncols halves)) * p)%Q.
Proof.
  apply (class_in_range_confidence_above_chance nat fitted_predict_proba sample_float_repr
           sample_DataFrame_str 2%nat sample_context sample_batch halves).
  - reflexivity.
  - exact halves_shaped.
  - simpl. lia.
Defined.

Lemma load_context_missing_artifact_witness :
  exists e,
    load_context (loaded 2%nat) sample_context = (Raise e, loaded 2%nat) /\
    isinstance e "KeyError" = true.
Proof.
  apply (load_context_missing_artifact nat 0%nat sample_load_model (loaded 2%nat)
           sample_context).
  reflexivity.
Defined.



Lemma run_error_text_is_not_json_witness :
  exists text,
    fst (Scoring.run bool sample_predict_proba sample_float_repr sample_DataFrame_str
           (Some false) sample_batch) = Ok text /\
    loads text = None.
Proof.
  apply (run_error_text_is_not_json bool sample_predict_proba sample_float_repr
           sample_DataFrame_str false sample_batch (RuntimeError "boom")).
  - reflexivity.
  - reflexivity.
Defined.

End ScoringMoreSamples.

(** ** More on the cells that talk to the workspace *)

Module WorkspaceMore.

Import Builtins Workspace WorkspaceFacts.

(** The calls that submit a cluster. *)
Definition is_creation (c : call) : bool :=
  match c with
  | compute_begin_create_or_update _ => true
  | _ => false
  end.

(** Text made of ASCII characters only. *)
Fixpoint ascii_only (s : string) : bool :=
  match s with
  | EmptyString => true
  | String c s' => (nat_of_ascii c <? 128)%nat && ascii_only s'
  end.

Lemma ints_failure (l : list string) :
  Exists (fun s => py_int s = None) l ->
  exists e, ints l = Raise e /\ isinstance e "ValueError" = true.
Proof.
  induction l as [|s l IH]; intros H; [inversion H|]. simpl.
  destruct (py_int s) as [z|] eqn:Hs.
  - inversion H as [? ? Hbad|? ? Hrest]; subst; [congruence|].
    destruct (IH Hrest) as (e & -> & He). exists e. split; [reflexivity | exact He].
  - eexists. split; reflexivity.
Qed.

Lemma ints_values (l : list string) (zs : list Z) :
  ints l = Ok zs -> Forall2 (fun s z => py_int s = Some z) l zs.
Proof.
  revert zs. induction l as [|s l IH]; simpl; intros zs H.
  - inversion H. constructor.
  - destruct (py_int s) as [z|] eqn:Hs; [|discriminate].
    destruct (ints l) as [zs'|]; [|discriminate]. simpl in H. inversion H; subst.
    constructor; [exact Hs | apply IH; reflexivity].
Qed.

Lemma values_in (models : list Model) (zs : list Z) :
  Forall2 (fun s z => py_int s = Some z) (List.map version models) zs ->
  forall z, In z zs <-> exists m, In m models /\ py_int (version m) = Some z.
Proof.
  revert zs. induction models as [|m ms IH]; simpl; intros zs H z;
    inversion H as [|s z' l l' Hs Hrest]; subst.
  - split; [intros [] | intros (m & [] & _)].
  - simpl. rewrite (IH _ Hrest z). split.
    + intros [<-|(m' & Hm' & Hz)]; [exists m | exists m']; auto.
    + intros (m' & [<-|Hm'] & Hz); [left; congruence | right; exists m'; auto].
Qed.

Section Facts.

Variable W : Type.
Variable ml_client : MLClient W.

Abbreviation provision_compute := (Workspace.provision_compute W ml_client).
Abbreviation latest_model_version := (Workspace.latest_model_version W ml_client).
Abbreviation deploy_latest := (Workspace.deploy_latest W ml_client).

(** X9: when the service finds afterwards the cluster it was asked to
    create, running the cell a second time reuses that cluster: over
    the two runs the cluster is submitted once. *)
Theorem provision_twice_creates_once (w w1 w2 w3 : W) (trace : list call) (e : exn)
    (created found : AmlCompute) :
  remote_compute_get ml_client "cpu-cluster" w = (Raise e, w1) ->
  isinstance e "Exception" = true ->
  remote_compute_begin_create_or_update ml_client new_cpu_cluster w1 = (Ok created, w2) ->
  remote_compute_get ml_client "cpu-cluster" w2 = (Ok found, w3) ->
  exists trace1 trace2,
    provision_compute (w, trace) = (Ok created, (w2, trace1)) /\
    provision_compute (w2, trace1) = (Ok found, (w3, trace2)) /\
    List.filter is_creation trace2 =
      (List.filter is_creation trace ++ [compute_begin_create_or_update new_cpu_cluster])%list.
Proof.
  intros Hget He Hnew Hget2.
  unfold Workspace.provision_compute, bindM, try_except, remote, print, ret,
    cpu_compute_target. simpl.
  rewrite Hget. simpl. rewrite He. simpl.
  change (mk_AmlCompute "cpu-cluster" "amlcompute" "STANDARD_DS3_V2" 0 4 180 "Dedicated")
    with new_cpu_cluster.
  rewrite Hnew. simpl. eexists _, _. split; [reflexivity|].
  rewrite Hget2. simpl. split; [reflexivity|].
  rewrite !List.filter_app. simpl. rewrite !List.app_nil_r. reflexivity.
Qed.

(** X10: when no version is listed, [max] raises [ValueError]; no
    model is fetched and nothing is deployed. *)
Theorem no_version_no_deployment (w w1 : W) (trace : list call)
    (online_endpoint_name : string) :
  remote_models_list ml_client "credit_defaults_model" w = (Ok [], w1) ->
  deploy_latest online_endpoint_name (w, trace) =
    (Raise (ValueError "max() arg is an empty sequence"),
     (w1, trace ++ [models_list "credit_defaults_model"])%list).
Proof.
  intros H. unfold Workspace.deploy_latest, Workspace.latest_model_version, bindM, remote,
    registered_model_name, Job.registered_model_name. simpl. rewrite H. reflexivity.
Qed.

(** X11: one listed version that [int] rejects is enough for the
    cell to raise [ValueError]; no model is fetched and nothing is
    deployed. *)
Theorem bad_version_no_deployment (w w1 : W) (trace : list call) (models : list Model)
    (online_endpoint_name : string) :
  remote_models_list ml_client "credit_defaults_model" w = (Ok models, w1) ->
  Exists (fun m => ascii_only (version m) = true /\ py_int (version m) = None) models ->
  exists e,
    isinstance e "ValueError" = true /\
    deploy_latest online_endpoint_name (w, trace) =
      (Raise e, (w1, trace ++ [models_list "credit_defaults_model"])%list).
Proof.
  intros H Hbad.
  destruct (ints_failure (List.map version models)) as (e & He & Hv).
  { apply List.Exists_exists in Hbad. destruct Hbad as (m & Hm & _ & Hnone).
    apply List.Exists_exists. exists (version m). split; [apply List.in_map, Hm | exact Hnone]. }
  exists e. split; [exact Hv|].
  unfold Workspace.deploy_latest, Workspace.latest_model_version, bindM, remote,
    registered_model_name, Job.registered_model_name. simpl. rewrite H. simpl.
  rewrite He. reflexivity.
Qed.

(** What the cell returns is decided by the set of listed versions. *)
Lemma latest_outcome (w w1 : W) (trace : list call) (models : list Model) :
  remote_models_list ml_client "credit_defaults_model" w = (Ok models, w1) ->
  fst (latest_model_version (w, trace)) =
    Py.bind (ints (List.map version models)) py_max.
Proof.
  intros H. unfold Workspace.latest_model_version, bindM, remote, registered_model_name,
    Job.registered_model_name. simpl. rewrite H. simpl.
  destruct (ints (List.map version models)); reflexivity.
Qed.

Lemma py_max_unique (l l' : list Z) :
  l <> [] -> (forall z, In z l <-> In z l') -> py_max l = py_max l'.
Proof.
  intros Hne Hsame.
  assert (Hne' : l' <> []).
  { destruct l as [|z l]; [congruence|]. intros ->. apply (Hsame z). left. reflexivity. }
  destruct (py_max_spec l Hne) as (v & -> & Hin & Hup).
  destruct (py_max_spec l' Hne') as (v' & -> & Hin' & Hup').
  f_equal. apply Z.le_antisymm.
  - apply Hup'. apply Hsame, Hin.
  - apply Hup. apply Hsame, Hin'.
Qed.

(** X12: the version selected does not depend on the order in which
    the service lists the models. *)
Theorem latest_ignores_listing_order (w w1 w' w1' : W) (trace trace' : list call)
    (models models' : list Model) :
  remote_models_list ml_client "credit_defaults_model" w = (Ok models, w1) ->
  remote_models_list ml_client "credit_defaults_model" w' = (Ok models', w1') ->
  (forall m, In m models <-> In m models') ->
  Forall (fun m => exists z, py_int (version m) = Some z) models ->
  fst (latest_model_version (w, trace)) = fst (latest_model_version (w', trace')).
Proof.
  intros H H' Hsame Hall.
  rewrite (latest_outcome _ _ _ _ H), (latest_outcome _ _ _ _ H').
  assert (Hall' : Forall (fun m => exists z, py_int (version m) = Some z) models').
  { rewrite List.Forall_forall in *. intros m Hm. apply Hall, Hsame, Hm. }
  destruct (ints_spec (List.map version models)) as (zs & Hzs & Hrel);
    [rewrite List.Forall_map; exact Hall|].
  destruct (ints_spec (List.map version models')) as (zs' & Hzs' & Hrel');
    [rewrite List.Forall_map; exact Hall'|].
  rewrite Hzs, Hzs'. simpl.
  destruct models as [|m ms].
  - inversion Hrel; subst. destruct models' as [|m' ms'].
    + inversion Hrel'; subst. reflexivity.
    + exfalso. apply (Hsame m'). left. reflexivity.
  - apply py_max_unique.
    + inversion Hrel. discriminate.
    + intros z. rewrite (values_in _ _ Hrel z), (values_in _ _ Hrel' z).
      split; intros (x & Hx & Hz); exists x; split; try exact Hz; apply Hsame, Hx.
Qed.

(** X13: a deployment is submitted only after the registry returned
    a model for the selected version, and that model is the one
    deployed: the cells never deploy anything else. *)
Theorem deployment_only_after_get (w w' : W) (trace' : list call)
    (online_endpoint_name : string) (r : result ManagedOnlineDeployment)
    (d : ManagedOnlineDeployment) :
  deploy_latest online_endpoint_name (w, []) = (r, (w', trace')) ->
  In (begin_create_or_update d) trace' ->
  exists latest model w1 w2,
    fst (latest_model_version (w, [])) = Ok latest /\
    remote_models_get ml_client "credit_defaults_model" latest w1 = (Ok model, w2) /\
    d = mk_ManagedOnlineDeployment "blue" online_endpoint_name model "Standard_DS3_v2" 1 /\
    trace' = [models_list "credit_defaults_model";
              models_get "credit_defaults_model" latest;
              begin_create_or_update d].
Proof.
  unfold Workspace.deploy_latest, Workspace.blue_deployment, Workspace.latest_model_version,
    bindM, remote, registered_model_name, Job.registered_model_name. simpl.
  destruct (remote_models_list ml_client "credit_defaults_model" w) as [[models|e] w1];
    simpl.
  2:{ intros [= <- <- <-] [H|[]]. discriminate H. }
  destruct (ints (List.map version models)) as [zs|e]; simpl.
  2:{ intros [= <- <- <-] [H|[]]. discriminate H. }
  destruct (py_max zs) as [latest|e]; simpl.
  2:{ intros [= <- <- <-] [H|[]]. discriminate H. }
  destruct (remote_models_get ml_client "credit_defaults_model" latest w1)
    as [[model|e] w2] eqn:Hget; simpl.
  2:{ intros [= <- <- <-] [H|[H|[]]]; discriminate H. }
  destruct (remote_begin_create_or_update ml_client _ w2) as [r' w3]. simpl.
  intros [= <- <- <-] [H|[H|[H|[]]]]; try discriminate H.
  injection H as <-.
  exists latest, model, w1, w2. repeat split. exact Hget.
Qed.

End Facts.

End WorkspaceMore.

(** ** More runs on the sample workspace *)

Module WorkspaceMoreSamples.

Import Builtins Workspace Samples WorkspaceFacts WorkspaceSamples WorkspaceMore.

Definition beta_registry : list Model :=
  [mk_Model "credit_defaults_model" "2"; mk_Model "credit_defaults_model" "3.0-beta"].

Definition blue_sample : ManagedOnlineDeployment :=
  mk_ManagedOnlineDeployment "blue" "credit-endpoint-0a1b2c3d"
    (mk_Model "credit_defaults_model" "10") "Standard_DS3_v2" 1.

Lemma provision_twice_creates_once_witness :
  exists trace1 trace2,
    provision_compute _ registry_client (([], []), []) =
      (Ok new_cpu_cluster, (([], [new_cpu_cluster]), trace1)) /\
    provision_compute _ registry_client (([], [new_cpu_cluster]), trace1) =
      (Ok new_cpu_cluster, (([], [new_cpu_cluster]), trace2)) /\
    List.filter is_creation trace2 =
      (List.filter is_creation [] ++ [compute_begin_create_or_update new_cpu_cluster])%list.
Proof.
  apply (provision_twice_creates_once _ registry_client ([], []) ([], [])
           ([], [new_cpu_cluster]) ([], [new_cpu_cluster]) [] not_found
           new_cpu_cluster new_cpu_cluster); reflexivity.
Defined.

Lemma no_version_no_deployment_witness :
  deploy_latest _ registry_client "credit-endpoint-0a1b2c3d" (([], []), []) =
    (Raise (ValueError "max() arg is an empty sequence"),
     (([], []), [models_list "credit_defaults_model"])).
Proof.
  apply (no_version_no_deployment _ registry_client ([], []) ([], []) []
           "credit-endpoint-0a1b2c3d").
  reflexivity.
Defined.

Lemma bad_version_no_deployment_witness :
  exists e,
    isinstance e "ValueError" = true /\
    deploy_latest _ registry_client "credit-endpoint-0a1b2c3d" ((beta_registry, []), []) =
      (Raise e, ((beta_registry, []), [models_list "credit_defaults_model"])).
Proof.
  apply (bad_version_no_deployment _ registry_client (beta_registry, []) (beta_registry, [])
           [] beta_registry "credit-endpoint-0a1b2c3d").
  - reflexivity.
  - right. left. split; reflexivity.
Defined.

Lemma reversed_registry_same (m : Model) :
  In m sample_registry <-> In m (List.rev sample_registry).
Proof. apply List.in_rev. Defined.

Lemma latest_ignores_listing_order_witness :
  fst (latest_model_version _ registry_client ((sample_registry, []), [])) =
  fst (latest_model_version _ registry_client ((List.rev sample_registry, []), [])).
Proof.
  apply (latest_ignores_listing_order _ registry_client (sample_registry, [])
           (sample_registry, []) (List.rev sample_registry, [])
           (List.rev sample_registry, []) [] [] sample_registry (List.rev sample_registry)).
  - reflexivity.
  - reflexivity.
  - exact reversed_registry_same.
  - exact sample_versions_are_integers.
Defined.

Lemma deployment_only_after_get_witness :
  exists latest model w1 w2,
    fst (latest_model_version _ registry_client ((sample_registry, []), [])) = Ok latest /\
    remote_models_get registry_client "credit_defaults_model" latest w1 = (Ok model, w2) /\
    blue_sample =
      mk_ManagedOnlineDeployment "blue" "credit-endpoint-0a1b2c3d" model "Standard_DS3_v2" 1 /\
    [models_list "credit_defaults_model"; models_get "credit_defaults_model" 10;
     begin_create_or_update blue_sample] =
    [models_list "credit_defaults_model"; models_get "credit_defaults_model" latest;
     begin_create_or_update blue_sample].
Proof.
  apply (deployment_only_after_get _ registry_client (sample_registry, [])
           (sample_registry, [])
           [models_list "credit_defaults_model"; models_get "credit_defaults_model" 10;
            begin_create_or_update blue_sample]
           "credit-endpoint-0a1b2c3d" (Ok blue_sample) blue_sample).
  - reflexivity.
  - right. right. left. reflexivity.
Defined.

End WorkspaceMoreSamples.

(** ** More on the command line of [main.py] *)

Module TrainingMore.

Import Builtins Argparse Training TrainingFacts.








(** X15: a value for [--n_estimators] that [int] rejects makes
    [main.py] exit with status 2, whatever follows on the command
    line. *)
Theorem bad_n_estimators_rejected (v : string) (rest : list string) :
  WorkspaceMore.ascii_only v = true ->
  py_int v = None ->
  main_args ("--n_estimators" :: v :: rest) = Raise (SystemExit "2").
Proof.
  intros _ Hv. unfold main_args, parse_args.
  destruct (existsb _ (before_separator _)); [reflexivity|].
  assert (Hc : forall st, consume parser ("--n_estimators" :: v :: rest) st
                          = Raise usage_error).
  { intros st.
    change (consume parser ("--n_estimators" :: v :: rest) st)
      with (if is_argument parser v
            then match convert TInt v with
                 | Some x =>
                     consume parser rest
                       (mk_parse_state (<["n_estimators" := x]> (namespace st))
                          ("n_estimators" :: seen st) (extras st))
                 | None => Raise usage_error
                 end
            else Raise usage_error).
    unfold convert. rewrite Hv. destruct (is_argument parser v); reflexivity. }
  rewrite Hc. reflexivity.
Qed.

Lemma bad_n_estimators_rejected_witness :
  main_args ["--n_estimators"; "1.5"; "--data"; "/mnt/data/credit.xls"]
    = Raise (SystemExit "2").
Proof.
  apply (bad_n_estimators_rejected "1.5" ["--data"; "/mnt/data/credit.xls"]); reflexivity.
Defined.

Lemma parse_args_same_option (p : ArgumentParser) (t t' : string) (a : Action)
    (e : option string) (rest : list string) :
  String.eqb t "--" = false -> String.eqb t' "--" = false ->
  parse_optional p t = Optional a e -> parse_optional p t' = Optional a e ->
  parse_args p (t :: rest) = parse_args p (t' :: rest).
Proof.
  intros Ht Ht' Hp Hp'. unfold parse_args.
  cbn [before_separator consume]. rewrite Ht, Ht'. cbn [existsb].
  rewrite Hp, Hp'. reflexivity.
Qed.

Ltac prefix_cases H Hl p :=
  repeat (destruct p as [|?c p];
          [ first [ discriminate H | exfalso; simpl in Hl; lia | idtac ]
          | simpl in H;
            match type of H with
            | (if ascii_dec ?c ?d then _ else _) = true =>
                destruct (ascii_dec c d) as [->|_]; [|discriminate H]
            | false = true => discriminate H
            end ]).

(** X18: every option of [main.py] may be cut short: a word of three
    characters or more that is the beginning of a declared option
    string is read as that option. *)
Theorem options_can_be_abbreviated (o p : string) (rest : list string) :
  In o (declared_options parser) -> String.prefix p o = true ->
  (3 <= String.length p)%nat ->
  main_args (p :: rest) = main_args (o :: rest).
Proof.
  intros Ho H Hl. unfold main_args.
  simpl in Ho. destruct Ho as [<-|[<-|[<-|[<-|[<-|[]]]]]];
    prefix_cases H Hl p;
    (eapply parse_args_same_option; reflexivity).
Qed.

Lemma options_can_be_abbreviated_witness :
  main_args ["--n_est"; "50"; "--data"; "/mnt/data/credit.xls"]
    = main_args ["--n_estimators"; "50"; "--data"; "/mnt/data/credit.xls"].
Proof.
  apply (options_can_be_abbreviated "--n_estimators" "--n_est"
           ["50"; "--data"; "/mnt/data/credit.xls"]).
  - simpl. tauto.
  - reflexivity.
  - simpl. lia.
Defined.

(** Two states that differ in what has been seen only. *)
Definition same_values (r1 r2 : result parse_state) : Prop :=
  match r1, r2 with
  | Ok s1, Ok s2 => namespace s1 = namespace s2 /\ extras s1 = extras s2
  | Raise e1, Raise e2 => e1 = e2
  | _, _ => False
  end.

Lemma consume_seen (p : ArgumentParser) (argv : list string) :
  forall st1 st2, namespace st1 = namespace st2 -> extras st1 = extras st2 ->
  same_values (consume p argv st1) (consume p argv st2).
Proof.
  remember (List.length argv) as n eqn:Hn. revert argv Hn.
  induction n as [n IH] using (well_founded_induction PeanoNat.Nat.lt_wf_0).
  intros argv Hn st1 st2 Hns Hex.
  assert (IH' : forall rest, (List.length rest < List.length argv)%nat ->
            forall s1 s2, namespace s1 = namespace s2 -> extras s1 = extras s2 ->
            same_values (consume p rest s1) (consume p rest s2)).
  { intros rest Hlt. apply (IH (List.length rest)); [lia | reflexivity]. }
  clear IH Hn. rename IH' into IH.
  destruct argv as [|t rest].
  - simpl. split; assumption.
  - cbn [consume]. destruct (String.eqb t "--").
    { simpl. rewrite Hns, Hex. split; reflexivity. }
    destruct (parse_optional p t) as [| a [v|] | |];
      try (apply IH; [simpl; lia | exact Hns | simpl; rewrite Hex; reflexivity]);
      try reflexivity.
    + destruct (kind a); [|reflexivity].
      destruct (convert (type_ a) v); [|reflexivity].
      apply IH; [simpl; lia | simpl; rewrite Hns; reflexivity | exact Hex].
    + destruct (kind a); [|reflexivity].
      destruct rest as [|v rest']; [reflexivity|].
      destruct (is_argument p v); [|reflexivity].
      destruct (convert (type_ a) v); [|reflexivity].
      apply IH; [simpl; lia | simpl; rewrite Hns; reflexivity | exact Hex].
Qed.

Lemma nothing_required (st : parse_state) :
  existsb (fun a => required a && negb (existsb (String.eqb (dest a)) (seen st))) parser
    = false.
Proof. reflexivity. Qed.

Lemma stored_option (o : string) (a : Action) :
  find_exact parser o = Some a -> kind a = Store ->
  String.eqb o "--" = false /\ parse_optional parser o = Optional a None.
Proof.
  intros Hf Hk. pose proof Hf as Hf'. unfold find_exact in Hf'.
  apply List.find_some in Hf'. destruct Hf' as [Hin Ho].
  simpl in Hin.
  destruct Hin as [<-|[<-|[<-|[<-|[<-|[<-|[]]]]]]]; try discriminate Hk;
    simpl in Ho; rewrite orb_false_r in Ho; apply String.eqb_eq in Ho; subst o;
    split; reflexivity.
Qed.

(** X19: an option of [main.py] given twice keeps its last value: the
    first occurrence, when its value is accepted, changes nothing. *)
Theorem repeated_option_last_wins (o v w : string) (a : Action) (x : value)
    (rest : list string) :
  find_exact parser o = Some a -> kind a = Store ->
  is_argument parser v = true -> convert (type_ a) v = Some x ->
  main_args (o :: v :: o :: w :: rest) = main_args (o :: w :: rest).
Proof.
  intros Hf Hk Hv Hc.
  destruct (stored_option _ _ Hf Hk) as [Ho Hp].
  destruct (is_argument_inv _ _ Hv) as [Hv1 Hv2].
  unfold main_args, parse_args.
  cbn [before_separator existsb]. rewrite Ho, Hv1. cbn [existsb].
  rewrite Hp, Hv2. cbn [orb].
  destruct (existsb _ (if String.eqb w "--" then _ else _)); [reflexivity|].
  rewrite (consume_store _ _ _ _ _ _ _ Ho Hp Hk Hv Hc). cbn [namespace seen extras].
  set (st0 := mk_parse_state (defaults parser) [] []).
  assert (Hs : same_values
            (consume parser (o :: w :: rest)
               (mk_parse_state (<[dest a := x]> (defaults parser)) [dest a] []))
            (consume parser (o :: w :: rest) st0)).
  { cbn [consume]. rewrite Ho, Hp, Hk.
    destruct (is_argument parser w); [|reflexivity].
    destruct (convert (type_ a) w) as [y|]; [|reflexivity].
    apply consume_seen; cbn [namespace extras]; [|reflexivity].
    apply insert_insert_eq. }
  unfold same_values in Hs.
  destruct (consume parser (o :: w :: rest) (mk_parse_state _ [dest a] [])) as [s1|e1];
    destruct (consume parser (o :: w :: rest) st0) as [s2|e2]; try contradiction.
  - destruct Hs as [Hns Hex]. cbn [Py.bind]. rewrite !nothing_required, Hns, Hex.
    reflexivity.
  - subst e2. reflexivity.
Qed.

Lemma repeated_option_last_wins_witness :
  main_args ["--n_estimators"; "50"; "--n_estimators"; "200"; "--data"; "/mnt/data/credit.xls"]
    = main_args ["--n_estimators"; "200"; "--data"; "/mnt/data/credit.xls"].
Proof.
  apply (repeated_option_last_wins "--n_estimators" "50" "200"
           (mk_Action ["--n_estimators"] "n_estimators" Store TInt false (VInt 100))
           (VInt 50) ["--data"; "/mnt/data/credit.xls"]); reflexivity.
Defined.

End TrainingMore.

(** ** The names of the online endpoints *)

Module NamingFacts.

Import Naming.

Lemma digit_char_inj (d e : N) :
  (d < 16)%N -> (e < 16)%N -> digit_char d = digit_char e -> d = e.
Proof.
  intros Hd He.
  assert (Hd' : exists i, (i < 16)%nat /\ d = N.of_nat i).
  { exists (N.to_nat d). split; lia. }
  assert (He' : exists i, (i < 16)%nat /\ e = N.of_nat i).
  { exists (N.to_nat e). split; lia. }
  destruct Hd' as (i & Hi & ->). destruct He' as (j & Hj & ->).
  unfold digit_char. rewrite !Nnat.Nat2N.id.
  do 16 (destruct i as [|i]; [do 16 (destruct j as [|j]; [simpl; first [reflexivity | discriminate]|]); lia|]).
  lia.
Qed.

Lemma length_digits (b : N) (k : nat) (n : N) : String.length (digits b k n) = k.
Proof. induction k; simpl; congruence. Qed.

Lemma digits_inj (b : N) (k : nat) (n m : N) :
  (1 < b <= 16)%N -> digits b k n = digits b k m ->
  (n mod b ^ N.of_nat k = m mod b ^ N.of_nat k)%N.
Proof.
  intros Hb. induction k as [|k IH]; intros H.
  - simpl. rewrite !N.mod_1_r. reflexivity.
  - simpl in H. injection H as Hd Hr. specialize (IH Hr).
    apply digit_char_inj in Hd;
      [| eapply N.lt_le_trans; [apply N.mod_lt; lia | lia] ..].
    rewrite Nnat.Nat2N.inj_succ, N.pow_succ_r'.
    rewrite (N.mul_comm b). rewrite !N.Div0.mod_mul_r. rewrite IH, Hd. reflexivity.
Qed.

Lemma digits_exact (b : N) (k : nat) (n m : N) :
  (1 < b <= 16)%N -> (n < b ^ N.of_nat k)%N -> (m < b ^ N.of_nat k)%N ->
  digits b k n = digits b k m -> n = m.
Proof.
  intros Hb Hn Hm H. apply digits_inj in H; [|exact Hb].
  rewrite !N.mod_small in H by assumption. exact H.
Qed.

Lemma digits_app (b : N) (j k : nat) (n : N) :
  digits b (j + k) n = digits b j (n / b ^ N.of_nat k) ++ digits b k n.
Proof.
  induction j as [|j IH]; [reflexivity|].
  cbn [Nat.add digits String.append]. rewrite IH. f_equal. f_equal.
  replace (N.of_nat (j + k)) with (N.of_nat k + N.of_nat j)%N by lia.
  rewrite N.pow_add_r, N.Div0.div_div. reflexivity.
Qed.

Lemma substring_0_app (s t : string) :
  substring 0 (String.length s) (s ++ t) = s.
Proof.
  induction s as [|c s IH]; simpl.
  - destruct t; reflexivity.
  - rewrite IH. reflexivity.
Qed.

Lemma substring_0_length (n : nat) (s : string) :
  String.length s = n -> substring 0 n s = s.
Proof.
  intros <-. induction s as [|c s IH]; simpl; [reflexivity|]. rewrite IH. reflexivity.
Qed.

Lemma app_inj_length (a a' b b' : string) :
  String.length a = String.length a' -> a ++ b = a' ++ b' -> a = a' /\ b = b'.
Proof.
  revert a'. induction a as [|c a IH]; intros [|c' a'] Hl H; try discriminate.
  - split; [reflexivity | exact H].
  - simpl in Hl, H. injection H as -> H. injection Hl as Hl.
    destruct (IH _ Hl H) as [-> ->]. split; reflexivity.
Qed.

Lemma length_append (a b : string) :
  String.length (a ++ b) = (String.length a + String.length b)%nat.
Proof.
  induction a as [|c a IH]; [reflexivity|].
  change (String c a ++ b) with (String c (a ++ b)).
  cbn [String.length Nat.add]. rewrite IH. reflexivity.
Qed.

Lemma credit_name (n : N) :
  Credit.online_endpoint_name n
    = "credit-endpoint-" ++ digits 16 8 (n / 16 ^ 24).
Proof.
  unfold Credit.online_endpoint_name, str_uuid. cbv zeta. f_equal.
  change 32%nat with (8 + 24)%nat. rewrite digits_app.
  change (N.of_nat 24) with 24%N.
  pose proof (length_digits 16 8 (n / 16 ^ 24)) as Hl.
  set (p := digits 16 8 (n / 16 ^ 24)) in *.
  rewrite <- Hl at 1. rewrite substring_0_app.
  rewrite <- Hl at 1. rewrite substring_0_app. reflexivity.
Qed.

(** X16: the endpoint name of the credit notebook is sixteen fixed
    characters followed by eight hexadecimal digits, 24 characters in
    all, and two identifiers get the same name exactly when they agree
    in their 32 leading bits. *)
Theorem credit_names_share_32_bits (a b : N) :
  (a < 2 ^ 128)%N -> (b < 2 ^ 128)%N ->
  String.length (Credit.online_endpoint_name a) = 24%nat /\
  (Credit.online_endpoint_name a = Credit.online_endpoint_name b
   <-> (a / 2 ^ 96 = b / 2 ^ 96)%N).
Proof.
  intros Ha Hb. rewrite !credit_name.
  change (16 ^ 24)%N with (2 ^ 96)%N.
  split.
  - rewrite length_append, length_digits. reflexivity.
  - split.
    + intros H. apply app_inj_length in H; [|reflexivity]. destruct H as [_ H].
      apply digits_exact in H; [exact H | lia | |].
      * apply N.Div0.div_lt_upper_bound. exact Ha.
      * apply N.Div0.div_lt_upper_bound. exact Hb.
    + intros ->. reflexivity.
Qed.

Lemma bankmarketing_name (d : datetime) :
  Bankmarketing.online_endpoint_name d
    = Some ("bankmarketing-" ++ digits 10 2 (month d) ++ digits 10 2 (day d)
            ++ digits 10 2 (hour d) ++ digits 10 2 (minute d)
            ++ digits 10 6 (microsecond d) ++ "").
Proof. reflexivity. Qed.

(** X17: for a date whose fields are in range, the endpoint name of
    the bankmarketing notebook has 28 characters, and two dates get the
    same name exactly when they agree in month, day, hour, minute and
    microsecond: the year and the second play no part. *)
Theorem bankmarketing_names_drop_year_and_second (d1 d2 : datetime) :
  in_range d1 -> in_range d2 ->
  (exists s, Bankmarketing.online_endpoint_name d1 = Some s /\
             String.length s = 28%nat) /\
  (Bankmarketing.online_endpoint_name d1 = Bankmarketing.online_endpoint_name d2
   <-> month d1 = month d2 /\ day d1 = day d2 /\ hour d1 = hour d2 /\
       minute d1 = minute d2 /\ microsecond d1 = microsecond d2).
Proof.
  intros (Hm1 & Hd1 & Hh1 & Hn1 & _ & Hu1) (Hm2 & Hd2 & Hh2 & Hn2 & _ & Hu2).
  rewrite !bankmarketing_name. split.
  - eexists. split; [reflexivity|].
    rewrite !length_append, !length_digits. reflexivity.
  - split.
    + intros H. apply (inj Some) in H.
      apply app_inj_length in H; [|reflexivity]. destruct H as [_ H].
      apply app_inj_length in H; [|rewrite !length_digits; reflexivity].
      destruct H as [Ha H].
      apply app_inj_length in H; [|rewrite !length_digits; reflexivity].
      destruct H as [Hb H].
      apply app_inj_length in H; [|rewrite !length_digits; reflexivity].
      destruct H as [Hc H].
      apply app_inj_length in H; [|rewrite !length_digits; reflexivity].
      destruct H as [Hd H].
      apply app_inj_length in H; [|rewrite !length_digits; reflexivity].
      destruct H as [He _].
      repeat split;
        match goal with
        | E : digits 10 ?k ?x = digits 10 ?k ?y |- ?x = ?y =>
            apply (digits_exact 10 k x y); [lia | simpl; lia | simpl; lia | exact E]
        end.
    + intros (-> & -> & -> & -> & ->). reflexivity.
Qed.

End NamingFacts.

Module NamingSamples.

Import Naming NamingFacts.

Definition first_uuid : N := 0x0a1b2c3d4e5f4a7b8c9d0e1f2a3b4c5d.
Definition second_uuid : N := 0x0a1b2c3d00004000800000000000ffff.

Lemma credit_names_share_32_bits_witness :
  String.length (Credit.online_endpoint_name first_uuid) = 24%nat /\
  (Credit.online_endpoint_name first_uuid = Credit.online_endpoint_name second_uuid
   <-> (first_uuid / 2 ^ 96 = second_uuid / 2 ^ 96)%N).
Proof.
  apply (credit_names_share_32_bits first_uuid second_uuid); reflexivity.
Defined.

Lemma first_credit_name :
  Credit.online_endpoint_name first_uuid = "credit-endpoint-0a1b2c3d".
Proof. reflexivity. Qed.

Definition march : datetime := mk_datetime 2023 3 7 14 5 9 123.
Definition march_later : datetime := mk_datetime 2024 3 7 14 5 33 123.

Lemma bankmarketing_names_drop_year_and_second_witness :
  (exists s, Bankmarketing.online_endpoint_name march = Some s /\
             String.length s = 28%nat) /\
  (Bankmarketing.online_endpoint_name march = Bankmarketing.online_endpoint_name march_later
   <-> month march = month march_later /\ day march = day march_later /\
       hour march = hour march_later /\ minute march = minute march_later /\
       microsecond march = microsecond march_later).
Proof.
  apply (bankmarketing_names_drop_year_and_second march march_later);
    unfold in_range; simpl; lia.
Defined.

Lemma march_name :
  Bankmarketing.online_endpoint_name march = Some "bankmarketing-03071405000123".
Proof. reflexivity. Qed.

End NamingSamples.
